(** * sling: a connection-limited HTTP client with a JSON request DSL

    A shallow embedding of the Go package [sling] (json request builder,
    connection pool, throttled HTTP client) together with the parts of the
    Go standard library its behaviour depends on ([strings], [net/url],
    [net/http.Header], [encoding/json.Decoder]), followed by the properties
    of section 4 and 8 of the specification.

    Conventions.
    - Go [string] is [string]; Go [int] is [Z] (no arithmetic is performed
      on it by the package, only comparisons and formatting).
    - A Go [map] is a [gmap]; [http.Header] is [gmap string (list string)].
    - A function that can return an error returns a sum or [option]; a
      function that can panic returns an [outcome].
    - An interface value ([JSON], i.e. [interface{}]) is [option dyn]: [None]
      is the nil interface, [Some] packs a dynamic type with a value. *)

From Stdlib Require Import ZArith String Ascii List Bool Lia DecimalString.
From stdpp Require Import base option list strings gmap fin_maps.

Local Open Scope string_scope.
Local Open Scope Z_scope.
Local Open Scope list_scope.

(** ** Go's [error] values

    The package creates errors with [fmt.Errorf], receives errors from the
    standard library, and hands caller-supplied errors back.  Error values
    are compared by identity in the tests ([err != expectedError]); here an
    error is its dynamic type together with its fields. *)
Inductive error : Type :=
| errorString (msg : string)
    (* errors.New, fmt.Errorf without %w *)
| urlError (Op URL Err : string)
    (* *url.Error *)
| SyntaxError (msg : string) (Offset : Z)
    (* *json.SyntaxError *)
| InvalidUnmarshalError (typ : string)
    (* *json.InvalidUnmarshalError *)
| UnmarshalTypeError (Value typ : string)
    (* *json.UnmarshalTypeError *)
| ioEOF
    (* io.EOF *)
| ioErrUnexpectedEOF
    (* io.ErrUnexpectedEOF *)
| customError (typ msg : string).
    (* any error type defined by the caller: its type name and message *)

#[global] Instance error_eq_dec : EqDecision error.
Proof. solve_decision. Defined.

(** The type assertion of [err] to a pointer to [json.SyntaxError] succeeds. *)
Definition isSyntaxError (e : error) : bool :=
  match e with SyntaxError _ _ => true | _ => false end.

(** ** Package [strings] (the functions used by the package and by net/url) *)
Module gostrings.

Definition byte_eqb (a b : ascii) : bool := Ascii.eqb a b.

Fixpoint ContainsByte (s : string) (c : ascii) : bool :=
  match s with
  | EmptyString => false
  | String x r => byte_eqb x c || ContainsByte r c
  end.

(** [strings.TrimLeft(s, cutset)]: drop the leading bytes of [s] that occur
    in [cutset]. *)
Fixpoint TrimLeft (s cutset : string) : string :=
  match s with
  | EmptyString => EmptyString
  | String x r => if ContainsByte cutset x then TrimLeft r cutset else s
  end.

(** [strings.IndexByte]. *)
Fixpoint IndexByte (s : string) (c : ascii) : option nat :=
  match s with
  | EmptyString => None
  | String x r =>
      if byte_eqb x c then Some 0%nat
      else match IndexByte r c with Some i => Some (S i) | None => None end
  end.

(** [strings.LastIndexByte]. *)
Fixpoint LastIndexByte (s : string) (c : ascii) : option nat :=
  match s with
  | EmptyString => None
  | String x r =>
      match LastIndexByte r c with
      | Some i => Some (S i)
      | None => if byte_eqb x c then Some 0%nat else None
      end
  end.

(** [s[:i]] and [s[i:]]. *)
Fixpoint take (i : nat) (s : string) : string :=
  match i, s with
  | S i', String x r => String x (take i' r)
  | _, _ => EmptyString
  end.

Fixpoint drop (i : nat) (s : string) : string :=
  match i, s with
  | S i', String _ r => drop i' r
  | _, _ => s
  end.

(** [strings.Cut(s, sep)] for a one-byte separator. *)
Definition Cut (s : string) (sep : ascii) : string * string * bool :=
  match IndexByte s sep with
  | Some i => (take i s, drop (S i) s, true)
  | None => (s, EmptyString, false)
  end.

(** [strings.Count(s, sep)] for a one-byte separator. *)
Fixpoint CountByte (s : string) (c : ascii) : nat :=
  match s with
  | EmptyString => 0%nat
  | String x r => ((if byte_eqb x c then 1 else 0) + CountByte r c)%nat
  end.

(** [strings.HasPrefix(s, prefix)]. *)
Fixpoint HasPrefix (s p : string) {struct p} : bool :=
  match p, s with
  | EmptyString, _ => true
  | String b p', String a s' => byte_eqb a b && HasPrefix s' p'
  | String _ _, EmptyString => false
  end.

Fixpoint lastByte (s : string) : option ascii :=
  match s with
  | EmptyString => None
  | String x EmptyString => Some x
  | String _ r => lastByte r
  end.

(** The elements produced by calling [strings.Cut(remaining, "/")] until
    no separator is found: always at least one element. *)
Fixpoint Split (s : string) (sep : ascii) : list string :=
  match s with
  | EmptyString => [EmptyString]
  | String x r =>
      if byte_eqb x sep then EmptyString :: Split r sep
      else match Split r sep with
           | e :: es => String x e :: es
           | [] => [String x EmptyString]
           end
  end.

Definition isUpper (c : ascii) : bool :=
  (65 <=? nat_of_ascii c)%nat && (nat_of_ascii c <=? 90)%nat.
Definition isLower (c : ascii) : bool :=
  (97 <=? nat_of_ascii c)%nat && (nat_of_ascii c <=? 122)%nat.
Definition isDigit (c : ascii) : bool :=
  (48 <=? nat_of_ascii c)%nat && (nat_of_ascii c <=? 57)%nat.
Definition isAlpha (c : ascii) : bool := isUpper c || isLower c.

Definition toLowerByte (c : ascii) : ascii :=
  if isUpper c then ascii_of_nat (nat_of_ascii c + 32) else c.
Definition toUpperByte (c : ascii) : ascii :=
  if isLower c then ascii_of_nat (nat_of_ascii c - 32) else c.

(** [strings.ToLower] on ASCII. *)
Fixpoint ToLower (s : string) : string :=
  match s with
  | EmptyString => EmptyString
  | String x r => String (toLowerByte x) (ToLower r)
  end.

Definition dquote : ascii := "034"%char.

(** The verb [%q] of [fmt]: the text between double quotes.  Go also escapes
    quotes, backslashes and bytes outside printable ASCII; on text free of
    them the two agree. *)
Definition quote (s : string) : string :=
  String dquote (s +:+ String dquote EmptyString).

End gostrings.

(** ** Package [net/url]

    A model of [url.Parse], [URL.ResolveReference] and [URL.String] of
    the Go standard library (RFC 3986, sections 3 and 5.2), which the
    package calls but does not define.

    Limits of the model: percent-escapes are checked for well-formedness but
    not decoded, so [Path] and [Fragment] hold the text as written (Go's
    [EscapedPath]; both coincide on text free of ['%']); the authority is
    split into user information (checked for its escapes only) and host,
    the optional port is checked, and bracketed IP literals and the per-byte
    host check are left out.  The library is followed as of Go 1.22. *)
Module url.
Import gostrings.

Record URL : Type := mkURL {
  Scheme : string;
  Opaque : string;          (* encoded opaque data *)
  User : option string;     (* username and password information; nil = None *)
  Host : string;            (* host or host:port *)
  Path : string;
  ForceQuery : bool;        (* append a query ('?') even if RawQuery is empty *)
  RawQuery : string;        (* encoded query values, without '?' *)
  Fragment : string         (* fragment for references, without '#' *)
}.

Definition empty : URL := mkURL "" "" None "" "" false "" "".

Definition eqs (a b : string) : bool := String.eqb a b.

(** [stringContainsCTLByte]. *)
Fixpoint stringContainsCTLByte (s : string) : bool :=
  match s with
  | EmptyString => false
  | String b r =>
      (nat_of_ascii b <? 32)%nat || (nat_of_ascii b =? 127)%nat
      || stringContainsCTLByte r
  end.

Inductive schemeScan : Type :=
| NoScheme                 (* return "", rawURL, nil *)
| MissingScheme            (* return "", "", errors.New("missing protocol scheme") *)
| SchemeAt (i : nat).      (* return rawURL[:i], rawURL[i+1:], nil *)

(** The loop of [getScheme]; [i] is the index of the first byte of [s] in
    the whole string. *)
Fixpoint scanScheme (i : nat) (s : string) : schemeScan :=
  match s with
  | EmptyString => NoScheme
  | String c r =>
      if isAlpha c then scanScheme (S i) r
      else if isDigit c || byte_eqb c "+" || byte_eqb c "-" || byte_eqb c "."
      then (if (i =? 0)%nat then NoScheme else scanScheme (S i) r)
      else if byte_eqb c ":"
      then (if (i =? 0)%nat then MissingScheme else SchemeAt i)
      else NoScheme
  end.

Definition getScheme (rawURL : string) : string + (string * string) :=
  match scanScheme 0 rawURL with
  | NoScheme => inr ("", rawURL)
  | MissingScheme => inl "missing protocol scheme"
  | SchemeAt i => inr (take i rawURL, drop (S i) rawURL)
  end.

Definition ishex (c : ascii) : bool :=
  isDigit c
  || ((97 <=? nat_of_ascii c)%nat && (nat_of_ascii c <=? 102)%nat)
  || ((65 <=? nat_of_ascii c)%nat && (nat_of_ascii c <=? 70)%nat).

(** The first pass of [unescape]: every ['%'] is followed by two
    hexadecimal digits. *)
Fixpoint validEscapes (s : string) : bool :=
  match s with
  | EmptyString => true
  | String c r =>
      if byte_eqb c "%" then
        match r with
        | String h1 (String h2 r') => ishex h1 && ishex h2 && validEscapes r'
        | _ => false
        end
      else validEscapes r
  end.

Fixpoint allDigits (s : string) : bool :=
  match s with
  | EmptyString => true
  | String c r => isDigit c && allDigits r
  end.

(** [validOptionalPort]: empty, or a colon followed by digits. *)
Definition validOptionalPort (port : string) : bool :=
  match port with
  | EmptyString => true
  | String c r => byte_eqb c ":" && allDigits r
  end.

Definition parseHost (host : string) : string + string :=
  match LastIndexByte host ":" with
  | Some i =>
      if validOptionalPort (drop i host) then inr host
      else inl ("invalid port " +:+ quote (drop i host) +:+ " after host")
  | None => inr host
  end.

(** [parseAuthority]: the text before the last ['@'] is the user
    information. *)
Definition parseAuthority (authority : string)
  : string + (option string * string) :=
  match LastIndexByte authority "@" with
  | None =>
      match parseHost authority with
      | inl e => inl e
      | inr h => inr (None, h)
      end
  | Some i =>
      match parseHost (drop (S i) authority) with
      | inl e => inl e
      | inr h =>
          if validEscapes (take i authority) then inr (Some (take i authority), h)
          else inl "invalid URL escape"
      end
  end.

(** [parse(rawURL, viaRequest = false)]. *)
Definition parse (rawURL : string) : string + URL :=
  if stringContainsCTLByte rawURL
  then inl "net/url: invalid control character in URL"
  else if eqs rawURL "*" then inr (mkURL "" "" None "" "*" false "" "")
  else
    match getScheme rawURL with
    | inl e => inl e
    | inr (scheme0, rest0) =>
        let scheme := ToLower scheme0 in
        let '(rest, rawQuery, forceQuery) :=
          if (match lastByte rest0 with Some c => byte_eqb c "?" | None => false end)
             && (CountByte rest0 "?" =? 1)%nat
          then (take (String.length rest0 - 1) rest0, "", true)
          else let '(r, q, _) := Cut rest0 "?" in (r, q, false) in
        if negb (HasPrefix rest "/") && negb (eqs scheme "")
        then (* rootless paths are opaque *)
          inr (mkURL scheme rest None "" "" forceQuery rawQuery "")
        else if negb (HasPrefix rest "/")
                && ContainsByte (fst (fst (Cut rest "/"))) ":"
        then inl "first path segment in URL cannot contain colon"
        else
          if (negb (eqs scheme "") || negb (HasPrefix rest "///"))
             && HasPrefix rest "//"
          then
            let authority0 := drop 2 rest in
            let '(authority, rest') :=
              match IndexByte authority0 "/" with
              | Some i => (take i authority0, drop i authority0)
              | None => (authority0, "")
              end in
            match parseAuthority authority with
            | inl e => inl e
            | inr (user, host) =>
                if validEscapes rest'
                then inr (mkURL scheme "" user host rest' forceQuery rawQuery "")
                else inl "invalid URL escape"
            end
          else
            if validEscapes rest
            then inr (mkURL scheme "" None "" rest forceQuery rawQuery "")
            else inl "invalid URL escape"
    end.

Definition setFragmentOf (u : URL) (f : string) : URL :=
  mkURL (Scheme u) (Opaque u) (User u) (Host u) (Path u)
        (ForceQuery u) (RawQuery u) f.

(** [url.Parse(rawURL)]: the fragment is cut off first, the rest is parsed,
    errors are wrapped in [*url.Error]. *)
Definition Parse (rawURL : string) : error + URL :=
  let '(u, frag, _) := Cut rawURL "#" in
  match parse u with
  | inl e => inl (urlError "parse" u e)
  | inr url =>
      if eqs frag "" then inr url
      else if validEscapes frag then inr (setFragmentOf url frag)
      else inl (urlError "parse" rawURL "invalid URL escape")
  end.

(** The state of the loop of [resolvePath]: the builder [dst] and the flag
    [first]. *)
Definition resolveStep (st : string * bool) (elem : string) : string * bool :=
  let '(dst, first) := st in
  if eqs elem "." then (dst, false)
  else if eqs elem ".." then
    let str := drop 1 dst in
    match LastIndexByte str "/" with
    | None => ("/", true)
    | Some index => ("/" +:+ take index str, first)
    end
  else ((if first then dst else dst +:+ "/") +:+ elem, false).

(** [resolvePath(base, ref)]: RFC 3986 sections 5.2.2 to 5.2.4. *)
Definition resolvePath (base ref : string) : string :=
  let full :=
    match ref with
    | EmptyString => base
    | String c _ =>
        if byte_eqb c "/" then ref
        else match LastIndexByte base "/" with
             | Some i => take (S i) base +:+ ref
             | None => ref
             end
    end in
  if eqs full "" then ""
  else
    let elems := Split full "/" in
    let '(dst, _) := fold_left resolveStep elems ("/", true) in
    let lastElem := List.last elems "" in
    let dst := if eqs lastElem "." || eqs lastElem ".." then dst +:+ "/" else dst in
    match dst with
    | String _ (String c r) => if byte_eqb c "/" then String c r else dst
    | _ => dst
    end.

Definition setPathOf (u : URL) (p : string) : URL :=
  mkURL (Scheme u) (Opaque u) (User u) (Host u) p
        (ForceQuery u) (RawQuery u) (Fragment u).

Definition isSome {A} (o : option A) : bool :=
  match o with Some _ => true | None => false end.

(** [u.ResolveReference(ref)] for a non-nil [ref]. *)
Definition ResolveReference (u ref : URL) : URL :=
  let scheme := if eqs (Scheme ref) "" then Scheme u else Scheme ref in
  if negb (eqs (Scheme ref) "") || negb (eqs (Host ref) "") || isSome (User ref)
  then (* the "absoluteURI" or "net_path" cases *)
    mkURL scheme (Opaque ref) (User ref) (Host ref)
          (resolvePath (Path ref) "")
          (ForceQuery ref) (RawQuery ref) (Fragment ref)
  else if negb (eqs (Opaque ref) "")
  then mkURL scheme (Opaque ref) None "" ""
             (ForceQuery ref) (RawQuery ref) (Fragment ref)
  else
    let inherit := eqs (Path ref) "" && negb (ForceQuery ref) && eqs (RawQuery ref) "" in
    let rawQuery := if inherit then RawQuery u else RawQuery ref in
    let fragment :=
      if inherit && eqs (Fragment ref) "" then Fragment u else Fragment ref in
    if eqs (Path ref) "" && negb (eqs (Opaque u) "")
    then mkURL scheme (Opaque u) None "" "" (ForceQuery ref) rawQuery fragment
    else (* the "abs_path" or "rel_path" cases *)
      mkURL scheme (Opaque ref) (User u) (Host u)
            (resolvePath (Path u) (Path ref))
            (ForceQuery ref) rawQuery fragment.

(** [u.String()]. *)
Definition String_ (u : URL) : string :=
  let scheme := if eqs (Scheme u) "" then "" else Scheme u +:+ ":" in
  let body :=
    if negb (eqs (Opaque u) "") then scheme +:+ Opaque u
    else
      let auth :=
        if negb (eqs (Scheme u) "") || negb (eqs (Host u) "") || isSome (User u)
        then
          (if negb (eqs (Host u) "") || negb (eqs (Path u) "") || isSome (User u)
           then "//" else "")
          +:+ (match User u with Some ui => ui +:+ "@" | None => "" end)
          +:+ Host u
        else "" in
      let buf := scheme +:+ auth in
      let path := Path u in
      let buf :=
        if negb (eqs path "") && negb (HasPrefix path "/") && negb (eqs (Host u) "")
        then buf +:+ "/" else buf in
      let buf :=
        if eqs buf "" && ContainsByte (fst (fst (Cut path "/"))) ":"
        then buf +:+ "./" else buf in
      buf +:+ path in
  let body :=
    if ForceQuery u || negb (eqs (RawQuery u) "")
    then body +:+ "?" +:+ RawQuery u else body in
  if negb (eqs (Fragment u) "") then body +:+ "#" +:+ Fragment u else body.

End url.

(** ** Package [encoding/json]: the scanner and [Decoder.Decode]

    [Decoder.Decode] reads the next JSON value of the stream with the
    byte-at-a-time scanner ([readValue]), and only then unmarshals the bytes
    of that value into the target.  The scanner is modelled state by state;
    unmarshalling depends on the dynamic type of the target and is a field
    of that type (see [GoType]). *)
Module json.
Import gostrings.

(** The step functions of the scanner. *)
Inductive stepFn : Type :=
| stateBeginValueOrEmpty | stateBeginValue
| stateBeginStringOrEmpty | stateBeginString
| stateEndValue | stateEndTop
| stateInString | stateInStringEsc
| stateInStringEscU | stateInStringEscU1 | stateInStringEscU12 | stateInStringEscU123
| stateNeg | state1 | state0 | stateDot | stateDot0 | stateE | stateESign | stateE0
| stateT | stateTr | stateTru
| stateF | stateFa | stateFal | stateFals
| stateN | stateNu | stateNul.

Inductive parseSt : Type := parseObjectKey | parseObjectValue | parseArrayValue.

Inductive scanCode : Type :=
| scanContinue | scanBeginLiteral | scanBeginObject | scanObjectKey
| scanObjectValue | scanEndObject | scanBeginArray | scanArrayValue
| scanEndArray | scanSkipSpace | scanEnd
| scanError (context : string).

(** The scanner: the current step function and the stack of composite
    values being scanned (top of the stack first). *)
Record scanner : Type := mkScanner { step : stepFn; parseState : list parseSt }.

Definition reset : scanner := mkScanner stateBeginValue [].

Definition maxNestingDepth : Z := 10000.

Definition isSpace (c : ascii) : bool :=
  (nat_of_ascii c <=? 32)%nat
  && (byte_eqb c " " || byte_eqb c "009" || byte_eqb c "013" || byte_eqb c "010").

Definition goto (s : scanner) (f : stepFn) : scanner := mkScanner f (parseState s).

Definition pushParseState (s : scanner) (next : stepFn) (newParseState : parseSt)
           (successState : scanCode) : scanner * scanCode :=
  let st := newParseState :: parseState s in
  if Z.of_nat (length st) <=? maxNestingDepth then (mkScanner next st, successState)
  else (mkScanner next (parseState s), scanError "exceeded max depth").

Definition popParseState (s : scanner) : scanner :=
  match parseState s with
  | _ :: [] | [] => mkScanner stateEndTop []
  | _ :: st => mkScanner stateEndValue st
  end.

Definition doEndTop (s : scanner) (c : ascii) : scanner * scanCode := (s, scanEnd).

Definition doEndValue (s : scanner) (c : ascii) : scanner * scanCode :=
  match parseState s with
  | [] => doEndTop (goto s stateEndTop) c
  | ps :: st =>
      if isSpace c then (goto s stateEndValue, scanSkipSpace)
      else match ps with
           | parseObjectKey =>
               if byte_eqb c ":"
               then (mkScanner stateBeginValue (parseObjectValue :: st), scanObjectKey)
               else (s, scanError "after object key")
           | parseObjectValue =>
               if byte_eqb c ","
               then (mkScanner stateBeginString (parseObjectKey :: st), scanObjectValue)
               else if byte_eqb c "}" then (popParseState s, scanEndObject)
               else (s, scanError "after object key:value pair")
           | parseArrayValue =>
               if byte_eqb c "," then (goto s stateBeginValue, scanArrayValue)
               else if byte_eqb c "]" then (popParseState s, scanEndArray)
               else (s, scanError "after array element")
           end
  end.

Definition doBeginValue (s : scanner) (c : ascii) : scanner * scanCode :=
  if isSpace c then (s, scanSkipSpace)
  else if byte_eqb c "{" then pushParseState s stateBeginStringOrEmpty parseObjectKey scanBeginObject
  else if byte_eqb c "[" then pushParseState s stateBeginValueOrEmpty parseArrayValue scanBeginArray
  else if byte_eqb c dquote then (goto s stateInString, scanBeginLiteral)
  else if byte_eqb c "-" then (goto s stateNeg, scanBeginLiteral)
  else if byte_eqb c "0" then (goto s state0, scanBeginLiteral)
  else if byte_eqb c "t" then (goto s stateT, scanBeginLiteral)
  else if byte_eqb c "f" then (goto s stateF, scanBeginLiteral)
  else if byte_eqb c "n" then (goto s stateN, scanBeginLiteral)
  else if isDigit c then (goto s state1, scanBeginLiteral)
  else (s, scanError "looking for beginning of value").

Definition doBeginValueOrEmpty (s : scanner) (c : ascii) : scanner * scanCode :=
  if isSpace c then (s, scanSkipSpace)
  else if byte_eqb c "]" then doEndValue s c
  else doBeginValue s c.

Definition doBeginString (s : scanner) (c : ascii) : scanner * scanCode :=
  if isSpace c then (s, scanSkipSpace)
  else if byte_eqb c dquote then (goto s stateInString, scanBeginLiteral)
  else (s, scanError "looking for beginning of object key string").

Definition doBeginStringOrEmpty (s : scanner) (c : ascii) : scanner * scanCode :=
  if isSpace c then (s, scanSkipSpace)
  else if byte_eqb c "}"
  then doEndValue (mkScanner (step s)
                     (match parseState s with
                      | _ :: st => parseObjectValue :: st
                      | [] => []
                      end)) c
  else doBeginString s c.

Definition isHexDigit (c : ascii) : bool :=
  isDigit c
  || ((97 <=? nat_of_ascii c)%nat && (nat_of_ascii c <=? 102)%nat)
  || ((65 <=? nat_of_ascii c)%nat && (nat_of_ascii c <=? 70)%nat).

Definition do0 (s : scanner) (c : ascii) : scanner * scanCode :=
  if byte_eqb c "." then (goto s stateDot, scanContinue)
  else if byte_eqb c "e" || byte_eqb c "E" then (goto s stateE, scanContinue)
  else doEndValue s c.

Definition doESign (s : scanner) (c : ascii) : scanner * scanCode :=
  if isDigit c then (goto s stateE0, scanContinue)
  else (s, scanError "in exponent of numeric literal").

(** One byte through a literal such as [true]: [want] is the expected
    byte, [next] the step function after it. *)
Definition literal (s : scanner) (c want : ascii) (next : stepFn) (context : string)
  : scanner * scanCode :=
  if byte_eqb c want then (goto s next, scanContinue) else (s, scanError context).

(** [s.step(s, c)]: the scanner consumes the byte [c]. *)
Definition doStep (s : scanner) (c : ascii) : scanner * scanCode :=
  match step s with
  | stateBeginValueOrEmpty => doBeginValueOrEmpty s c
  | stateBeginValue => doBeginValue s c
  | stateBeginStringOrEmpty => doBeginStringOrEmpty s c
  | stateBeginString => doBeginString s c
  | stateEndValue => doEndValue s c
  | stateEndTop => doEndTop s c
  | stateInString =>
      if byte_eqb c dquote then (goto s stateEndValue, scanContinue)
      else if byte_eqb c "\" then (goto s stateInStringEsc, scanContinue)
      else if (nat_of_ascii c <? 32)%nat then (s, scanError "in string literal")
      else (s, scanContinue)
  | stateInStringEsc =>
      if byte_eqb c "b" || byte_eqb c "f" || byte_eqb c "n" || byte_eqb c "r"
         || byte_eqb c "t" || byte_eqb c "\" || byte_eqb c "/" || byte_eqb c dquote
      then (goto s stateInString, scanContinue)
      else if byte_eqb c "u" then (goto s stateInStringEscU, scanContinue)
      else (s, scanError "in string escape code")
  | stateInStringEscU =>
      if isHexDigit c then (goto s stateInStringEscU1, scanContinue)
      else (s, scanError "in \u hexadecimal character escape")
  | stateInStringEscU1 =>
      if isHexDigit c then (goto s stateInStringEscU12, scanContinue)
      else (s, scanError "in \u hexadecimal character escape")
  | stateInStringEscU12 =>
      if isHexDigit c then (goto s stateInStringEscU123, scanContinue)
      else (s, scanError "in \u hexadecimal character escape")
  | stateInStringEscU123 =>
      if isHexDigit c then (goto s stateInString, scanContinue)
      else (s, scanError "in \u hexadecimal character escape")
  | stateNeg =>
      if byte_eqb c "0" then (goto s state0, scanContinue)
      else if isDigit c then (goto s state1, scanContinue)
      else (s, scanError "in numeric literal")
  | state1 =>
      if isDigit c then (goto s state1, scanContinue) else do0 s c
  | state0 => do0 s c
  | stateDot =>
      if isDigit c then (goto s stateDot0, scanContinue)
      else (s, scanError "after decimal point in numeric literal")
  | stateDot0 =>
      if isDigit c then (s, scanContinue)
      else if byte_eqb c "e" || byte_eqb c "E" then (goto s stateE, scanContinue)
      else doEndValue s c
  | stateE =>
      if byte_eqb c "+" || byte_eqb c "-" then (goto s stateESign, scanContinue)
      else doESign s c
  | stateESign => doESign s c
  | stateE0 =>
      if isDigit c then (s, scanContinue) else doEndValue s c
  | stateT => literal s c "r" stateTr "in literal true (expecting 'r')"
  | stateTr => literal s c "u" stateTru "in literal true (expecting 'u')"
  | stateTru => literal s c "e" stateEndValue "in literal true (expecting 'e')"
  | stateF => literal s c "a" stateFa "in literal false (expecting 'a')"
  | stateFa => literal s c "l" stateFal "in literal false (expecting 'l')"
  | stateFal => literal s c "s" stateFals "in literal false (expecting 's')"
  | stateFals => literal s c "e" stateEndValue "in literal false (expecting 'e')"
  | stateN => literal s c "u" stateNu "in literal null (expecting 'u')"
  | stateNu => literal s c "l" stateNul "in literal null (expecting 'l')"
  | stateNul => literal s c "l" stateEndValue "in literal null (expecting 'l')"
  end.

(** [nonSpace(buf)]. *)
Fixpoint nonSpace (b : string) : bool :=
  match b with
  | EmptyString => false
  | String c r => negb (isSpace c) || nonSpace r
  end.

(** The message of a scanner error at byte [c].  Go quotes the byte with
    [quoteChar], which is the byte between single quotes for every
    printable byte except the single quote and the backslash. *)
Definition syntaxMsg (c : ascii) (context : string) : string :=
  "invalid character '" +:+ String c "' " +:+ context.

(** The loop of [readValue] over the unread input [buf]: [n] bytes have
    been fed to the scanner [s] so far, [all] is the whole buffer.  The
    result is the number of bytes of the value, or the error. *)
Fixpoint readLoop (s : scanner) (n : nat) (all buf : string) : error + nat :=
  match buf with
  | EmptyString =>
      (* the read returned io.EOF: feed a space *)
      match snd (doStep s " ") with
      | scanEnd => inr n
      | _ => if nonSpace all then inl ioErrUnexpectedEOF else inl ioEOF
      end
  | String c r =>
      let '(s', code) := doStep s c in
      match code with
      | scanEnd => inr n
      | scanEndObject | scanEndArray =>
          match snd (doEndValue s' " ") with
          | scanEnd => inr (S n)
          | _ => readLoop s' (S n) all r
          end
      | scanError context =>
          inl (SyntaxError (syntaxMsg c context) (Z.of_nat (S n)))
      | _ => readLoop s' (S n) all r
      end
  end.

Definition readValue (buf : string) : error + nat := readLoop reset 0 buf buf.

(** A decoder over a body that is entirely available: the unread bytes and
    the sticky error [dec.err]. *)
Record Decoder : Type := mkDecoder { buf : string; err : option error }.

Definition NewDecoder (r : string) : Decoder := mkDecoder r None.

(** [dec.Decode(v)], where [unmarshal] is [d.unmarshal(v)] for the dynamic
    type of [v]: it receives the bytes of the value read and returns the
    error, if any, together with the target as left by the call. *)
Definition Decode {T : Type} (unmarshal : string -> T -> option error * T)
           (dec : Decoder) (v : T) : Decoder * option error * T :=
  match err dec with
  | Some e => (dec, Some e, v)
  | None =>
      match readValue (buf dec) with
      | inl e => (mkDecoder (buf dec) (Some e), Some e, v)
      | inr n =>
          let '(e, v') := unmarshal (take n (buf dec)) v in
          (mkDecoder (drop n (buf dec)) None, e, v')
      end
  end.

End json.

(** ** Package [net/http]: [Header] and [NewRequest] *)
Module http.
Import gostrings.

(** [httpguts.IsTokenRune] and [validHeaderFieldByte]: the token bytes of
    RFC 7230. *)
Definition isToken (c : ascii) : bool :=
  isAlpha c || isDigit c || ContainsByte "!#$%&'*+-.^_`|~" c.

Fixpoint allToken (s : string) : bool :=
  match s with
  | EmptyString => true
  | String c r => isToken c && allToken r
  end.

(** The second loop of [canonicalMIMEHeaderKey]: upper case for the first
    letter and after each dash, lower case elsewhere. *)
Fixpoint canonicalize (upper : bool) (s : string) : string :=
  match s with
  | EmptyString => EmptyString
  | String c r =>
      let c' := if upper then toUpperByte c else toLowerByte c in
      String c' (canonicalize (byte_eqb c' "-") r)
  end.

(** [textproto.CanonicalMIMEHeaderKey]: a key holding a byte that is not a
    token byte is returned unchanged. *)
Definition CanonicalMIMEHeaderKey (s : string) : string :=
  if allToken s then canonicalize true s else s.

(** [type Header map[string][]string]; a missing key reads as the nil
    slice. *)
Abbreviation Header := (gmap string (list string)).

Definition values (h : Header) (key : string) : list string :=
  default [] (h !! key).

Definition Add (key value : string) (h : Header) : Header :=
  let key := CanonicalMIMEHeaderKey key in
  <[key := values h key ++ [value]]> h.

Definition Set_ (key value : string) (h : Header) : Header :=
  <[CanonicalMIMEHeaderKey key := [value]]> h.

Definition Get (h : Header) (key : string) : string :=
  match values h (CanonicalMIMEHeaderKey key) with
  | [] => ""
  | v :: _ => v
  end.

Record Request : Type := mkRequest {
  Method : string;
  URL : url.URL;
  Header_ : Header;
  Body : string;
  ContentLength : Z;
  Host : string
}.

Definition validMethod (method : string) : bool :=
  negb (String.eqb method "") && allToken method.

(** [removeEmptyPort]: a trailing colon without port is dropped. *)
Definition removeEmptyPort (host : string) : string :=
  let after (a b : option nat) :=
    match a, b with
    | Some i, Some j => (j <? i)%nat
    | Some _, None => true
    | None, _ => false
    end in
  if after (LastIndexByte host ":") (LastIndexByte host "]")
     && (match lastByte host with Some c => byte_eqb c ":" | None => false end)
  then take (String.length host - 1) host
  else host.

(** [http.NewRequest(method, url, body)] for a body held in a
    [*bytes.Buffer]. *)
Definition NewRequest (method urlStr body : string) : error + Request :=
  let method := if String.eqb method "" then "GET" else method in
  if negb (validMethod method)
  then inl (errorString ("net/http: invalid method " +:+ quote method))
  else
    match url.Parse urlStr with
    | inl e => inl e
    | inr u =>
        let host := removeEmptyPort (url.Host u) in
        let u := url.mkURL (url.Scheme u) (url.Opaque u) (url.User u) host
                           (url.Path u) (url.ForceQuery u) (url.RawQuery u)
                           (url.Fragment u) in
        inr (mkRequest method u ∅ body (Z.of_nat (String.length body)) host)
    end.

Record Response : Type := mkResponse { StatusCode : Z; ResponseBody : string }.

Definition StatusBadRequest : Z := 400.

End http.

(** ** Package [sling]: the JSON request builder (src/unnamed/part_000) *)

(** A function that may panic. *)
Inductive outcome (A : Type) : Type :=
| Returns (a : A)
| Panics (reason : string).
Arguments Returns {A} a.
Arguments Panics {A} reason.

Definition nilDereference : string :=
  "runtime error: invalid memory address or nil pointer dereference".

(** A dynamic type, as far as the package observes it: how [encoding/json]
    encodes and decodes its values, and which of the two interfaces of the
    type switch of [OnHTTPResponse] its method set satisfies.

    [jsonUnmarshal] is [d.unmarshal(v)]: given the bytes of one JSON value it
    returns the error ([None] is nil) and the target as the call leaves it.
    [AsError], when present, is the method of [Errorable]; its result may be
    nil.  [Error], when present, is the method of [error], so that a value
    of the type is an error of type [typeName] with that message. *)
Record GoType : Type := mkGoType {
  typeName : string;
  carrier : Type;
  jsonMarshal : carrier -> error + string;
  jsonUnmarshal : string -> carrier -> option error * carrier;
  AsError : option (carrier -> option error);
  Error : option (carrier -> string)
}.

(** A non-nil value of interface type. *)
Record dyn : Type := mkDyn { dynType : GoType; dynValue : carrier dynType }.

(** [type JSON interface{}]; [None] is nil. *)
Definition JSON : Type := option dyn.

Record jsonRequest : Type := mkJsonRequest {
  method : string;
  path : string;
  body : JSON;
  success : JSON;
  failure : JSON;
  statusErrors : gmap Z (option error);   (* map[int]error; a registered error may be nil *)
  headers : http.Header;
  URL : option url.URL                    (* the embedded *url.URL; nil until HTTPRequest *)
}.

Definition JSONRequest (method path : string) : jsonRequest :=
  mkJsonRequest method path None None None ∅ ∅ None.

Definition Header (name value : string) (request : jsonRequest) : jsonRequest :=
  mkJsonRequest (method request) (path request) (body request) (success request)
                (failure request) (statusErrors request)
                (http.Add name value (headers request)) (URL request).

Definition Body (b : JSON) (request : jsonRequest) : jsonRequest :=
  mkJsonRequest (method request) (path request) b (success request)
                (failure request) (statusErrors request) (headers request)
                (URL request).

Definition Response (b : JSON) (request : jsonRequest) : jsonRequest :=
  mkJsonRequest (method request) (path request) (body request) b b
                (statusErrors request) (headers request) (URL request).

Definition Success (b : JSON) (request : jsonRequest) : jsonRequest :=
  mkJsonRequest (method request) (path request) (body request) b
                (failure request) (statusErrors request) (headers request)
                (URL request).

Definition Failure (b : JSON) (request : jsonRequest) : jsonRequest :=
  mkJsonRequest (method request) (path request) (body request) (success request)
                b (statusErrors request) (headers request) (URL request).

Definition StatusError (statusCode : Z) (err : option error) (request : jsonRequest)
  : jsonRequest :=
  mkJsonRequest (method request) (path request) (body request) (success request)
                (failure request) (<[statusCode := err]> (statusErrors request))
                (headers request) (URL request).

Definition setURL (u : url.URL) (request : jsonRequest) : jsonRequest :=
  mkJsonRequest (method request) (path request) (body request) (success request)
                (failure request) (statusErrors request) (headers request) (Some u).

(** [baseURL.ResolveReference(requestedURL)] on pointers.  The method starts
    with [url := *ref] and reads [u.Scheme] when [ref.Scheme] is empty; with
    a scheme in [ref] the receiver is not read. *)
Definition ResolveReferencePtr (u ref : option url.URL) : outcome url.URL :=
  match ref with
  | None => Panics nilDereference
  | Some r =>
      match u with
      | Some b => Returns (url.ResolveReference b r)
      | None =>
          if String.eqb (url.Scheme r) "" then Panics nilDereference
          else Returns (url.ResolveReference url.empty r)
      end
  end.

(** [json.NewEncoder(body).Encode(v)]: the encoding followed by a newline. *)
Definition Encode (v : dyn) : error + string :=
  match jsonMarshal (dynType v) (dynValue v) with
  | inl e => inl e
  | inr s => inr (s +:+ String "010" EmptyString)
  end.

(** The loop over [request.headers].  Go ranges over a map in an unspecified
    order; [map_fold] fixes one, and the result does not depend on it because
    the keys of the map are distinct. *)
Definition addAll (hs : http.Header) (h : http.Header) : http.Header :=
  map_fold (fun name values acc => fold_left (fun a value => http.Add name value a) values acc)
           h hs.

Definition withHeader (h : http.Header) (req : http.Request) : http.Request :=
  http.mkRequest (http.Method req) (http.URL req) h (http.Body req)
                 (http.ContentLength req) (http.Host req).

(** [request.HTTPRequest(baseURL)].  The result is the request as the call
    leaves it (its [URL] is assigned before anything can fail) and what the
    call returns: an error, or the [*http.Request]; the responder returned
    with it is the request itself. *)
Definition HTTPRequest (baseURL : option url.URL) (request : jsonRequest)
  : outcome (jsonRequest * (error + http.Request)) :=
  let requestedURL :=
    match url.Parse (gostrings.TrimLeft (path request) "/") with
    | inr u => Some u
    | inl _ => None          (* requestedURL, _ := ... : the error is dropped *)
    end in
  match ResolveReferencePtr baseURL requestedURL with
  | Panics reason => Panics reason
  | Returns u =>
      let request := setURL u request in
      match (match body request with
             | Some v => Encode v
             | None => inr ""
             end) with
      | inl err => Returns (request, inl err)
      | inr buffer =>
          match http.NewRequest (method request) (url.String_ u) buffer with
          | inl err => Returns (request, inl err)
          | inr req =>
              let h := addAll (headers request) (http.Header_ req) in
              let h := http.Set_ "Content-Type" "application/json" h in
              let h := http.Set_ "Accept" "application/json" h in
              Returns (request, inr (withHeader h req))
          end
      end
  end.

(** [%d] of an [int]. *)
Definition formatInt (n : Z) : string := NilZero.string_of_int (Z.to_int n).

(** [%s] of a [*url.URL]: its [String()], and [<nil>] for the nil pointer. *)
Definition formatURL (u : option url.URL) : string :=
  match u with
  | Some u => url.String_ u
  | None => "<nil>"
  end.

(** What a call of [OnHTTPResponse] leaves behind: the error returned
    ([None] is nil), the decoder with what is left of the body, and, when
    [Decode] was called, the target as that call left it. *)
Record responded : Type := mkResponded {
  returned : option error;
  decoder : json.Decoder;
  decoded : option dyn
}.

(** [decoder.Decode(v)] for a target of interface type. *)
Definition Decode (dec : json.Decoder) (v : dyn) : json.Decoder * option error * dyn :=
  let '(dec', e, x) := json.Decode (jsonUnmarshal (dynType v)) dec (dynValue v) in
  (dec', e, mkDyn (dynType v) x).

(** The value [v] converted to the interface [error]. *)
Definition asErrorValue (v : dyn) : option error :=
  match Error (dynType v) with
  | Some msg => Some (customError (typeName (dynType v)) (msg (dynValue v)))
  | None => None
  end.

Definition OnHTTPResponse (responder : jsonRequest) (res : http.Response) : responded :=
  let decoder := json.NewDecoder (http.ResponseBody res) in
  if http.StatusCode res <? http.StatusBadRequest then
    match success responder with
    | Some target =>
        let '(dec, e, v) := Decode decoder target in mkResponded e dec (Some v)
    | None => mkResponded None decoder None
    end
  else
    let err :=
      errorString ("request " +:+ method responder +:+ " " +:+ formatURL (URL responder)
                   +:+ " as JSON returned status " +:+ formatInt (http.StatusCode res)) in
    match statusErrors responder !! http.StatusCode res with
    | Some err => mkResponded err decoder None
    | None =>
        match failure responder with
        | None => mkResponded (Some err) decoder None
        | Some target =>
            let '(dec, e, v) := Decode decoder target in
            match e with
            | Some err => mkResponded (Some err) dec (Some v)
            | None =>
                match AsError (dynType v) with
                | Some asError => mkResponded (asError (dynValue v)) dec (Some v)
                | None =>
                    match asErrorValue v with
                    | Some e => mkResponded (Some e) dec (Some v)
                    | None => mkResponded (Some err) dec (Some v)
                    end
                end
            end
        end
    end.

(** ** The test doubles and target types of the test suite *)
Module tests.
Import gostrings.

(** [requestURL] of json_request_test.go. *)
Definition requestURL : option url.URL :=
  match url.Parse "http://example.com/doc/" with
  | inr u => Some u
  | inl _ => None
  end.

Definition newResponse (statusCode : Z) (body : string) : http.Response :=
  http.mkResponse statusCode body.

(** [fakeHTTP.Do] with [fake.error == nil]: the request is resolved against
    [requestURL] and the configured response is handed to the responder. *)
Definition Do (response : http.Response) (requestable : jsonRequest)
  : outcome (error + (http.Request * responded)) :=
  match HTTPRequest requestURL requestable with
  | Panics reason => Panics reason
  | Returns (_, inl err) => Returns (inl err)
  | Returns (responder, inr req) =>
      Returns (inr (req, OnHTTPResponse responder response))
  end.

(** A Go [string] handed over by value, as in
    [var responseData string; ... Response(responseData)]: [Unmarshal]
    refuses a target that is not a pointer. *)
Definition stringValue : GoType :=
  mkGoType "string" string
           (fun s => inr (gostrings.quote s))
           (fun _ s => (Some (InvalidUnmarshalError "string"), s))
           None None.

Inductive flatState : Type :=
| BeforeObject | KeyOrEnd | Key | InKey (acc : string) | AfterKey (k : string)
| BeforeValue (k : string) | InValue (k acc : string) | AfterValue | AfterObject.

(** The members of a JSON object all of whose values are strings without
    escapes, in order; [None] for every other text. *)
Fixpoint flatObject (st : flatState) (ms : list (string * string)) (text : string)
  : option (list (string * string)) :=
  match text with
  | EmptyString => match st with AfterObject => Some ms | _ => None end
  | String c r =>
      match st with
      | BeforeObject =>
          if json.isSpace c then flatObject st ms r
          else if byte_eqb c "{" then flatObject KeyOrEnd ms r else None
      | KeyOrEnd =>
          if json.isSpace c then flatObject st ms r
          else if byte_eqb c "}" then flatObject AfterObject ms r
          else if byte_eqb c gostrings.dquote then flatObject (InKey "") ms r else None
      | Key =>
          if json.isSpace c then flatObject st ms r
          else if byte_eqb c gostrings.dquote then flatObject (InKey "") ms r else None
      | InKey acc =>
          if byte_eqb c gostrings.dquote then flatObject (AfterKey acc) ms r
          else if byte_eqb c "\" then None
          else flatObject (InKey (acc +:+ String c "")) ms r
      | AfterKey k =>
          if json.isSpace c then flatObject st ms r
          else if byte_eqb c ":" then flatObject (BeforeValue k) ms r else None
      | BeforeValue k =>
          if json.isSpace c then flatObject st ms r
          else if byte_eqb c gostrings.dquote then flatObject (InValue k "") ms r else None
      | InValue k acc =>
          if byte_eqb c gostrings.dquote then flatObject AfterValue (ms ++ [(k, acc)]) r
          else if byte_eqb c "\" then None
          else flatObject (InValue k (acc +:+ String c "")) ms r
      | AfterValue =>
          if json.isSpace c then flatObject st ms r
          else if byte_eqb c "," then flatObject Key ms r
          else if byte_eqb c "}" then flatObject AfterObject ms r else None
      | AfterObject => if json.isSpace c then flatObject st ms r else None
      end
  end.

(** What [encoding/json] calls the value a text begins: [object], [array],
    [string], [bool], [null] or [number]. *)
Fixpoint kindOf (text : string) : string :=
  match text with
  | EmptyString => "null"
  | String c r =>
      if json.isSpace c then kindOf r
      else if byte_eqb c "{" then "object"
      else if byte_eqb c "[" then "array"
      else if byte_eqb c gostrings.dquote then "string"
      else if byte_eqb c "t" || byte_eqb c "f" then "bool"
      else if byte_eqb c "n" then "null"
      else "number"
  end.

(** Decoding into a pointer to the struct type [typ], which is
    [struct { Message string }]: of an object a member whose name matches
    [Message] without regard to case is stored and other members are
    ignored, [null] changes nothing, any other value is a type error.  The
    objects read are those of [flatObject]; another object leaves the target
    as it is. *)
Definition unmarshalMessage (typ : string) (text : string) (m : string)
  : option error * string :=
  if String.eqb (kindOf text) "object" then
    match flatObject BeforeObject [] text with
    | Some ms =>
        (None,
         fold_left (fun acc kv => if String.eqb (ToLower (fst kv)) "message"
                                  then snd kv else acc) ms m)
    | None => (None, m)
    end
  else if String.eqb (kindOf text) "null" then (None, m)
  else (Some (UnmarshalTypeError (kindOf text) typ), m).

Definition marshalMessage (m : string) : error + string :=
  inr ("{" +:+ gostrings.quote "Message" +:+ ":" +:+ gostrings.quote m +:+ "}").

(** [*errorResponse] of json_request_test.go: a pointer to
    [struct { Message string }] with the method [Error() string]. *)
Definition errorResponse : GoType :=
  mkGoType "*sling_test.errorResponse" string marshalMessage
           (unmarshalMessage "sling_test.errorResponse")
           None (Some (fun m => m)).

(** A pointer to [struct { Message string }] with the method
    [AsError() error] returning [errors.New(Message)]. *)
Definition errorableResponse : GoType :=
  mkGoType "*sling_test.errorableResponse" string marshalMessage
           (unmarshalMessage "sling_test.errorableResponse")
           (Some (fun m => Some (errorString m))) None.

(** A pointer to [struct { Message string }] without methods. *)
Definition plainResponse : GoType :=
  mkGoType "*sling_test.plainResponse" string marshalMessage
           (unmarshalMessage "sling_test.plainResponse") None None.

Definition messageBody (m : string) : string :=
  match marshalMessage m with inr s => s | inl _ => "" end.

(** The responder [HTTPRequest(requestURL)] returns for a request. *)
Definition responderOf (request : jsonRequest) : jsonRequest :=
  match HTTPRequest requestURL request with
  | Returns (responder, _) => responder
  | Panics _ => request
  end.

End tests.

(** ** Package [sling]: the throttled client (src/trunk/http_test.go) *)

(** [type semaphore chan nothing]: a buffered channel of empty structs is
    its capacity and the number of elements it holds. *)
Record semaphore : Type := mkSemaphore { cap : Z; len : Z }.

(** [make(semaphore, n)]. *)
Definition makeSemaphore (n : Z) : outcome semaphore :=
  if n <? 0 then Panics "makechan: size out of range"
  else Returns (mkSemaphore n 0).

(** [s.Lock()], the send [s <- n]: [None] when the channel is full, in which
    case the goroutine is parked until a receive makes room. *)
Definition Lock (s : semaphore) : option semaphore :=
  if len s <? cap s then Some (mkSemaphore (cap s) (len s + 1)) else None.

(** [s.Unlock()], the receive [<-s]: [None] when the channel is empty. *)
Definition Unlock (s : semaphore) : option semaphore :=
  if 0 <? len s then Some (mkSemaphore (cap s) (len s - 1)) else None.

(** The [*http.Client] handed to the throttled client, as configured by
    [NewConnectionPool]. *)
Record Transport : Type := mkTransport {
  MaxIdleConnsPerHost : Z;
  InsecureSkipVerify : bool
}.

Record throttledHTTPClient : Type := mkThrottledHTTPClient {
  throttle : semaphore;          (* the embedded semaphore *)
  netHTTPClient : Transport      (* the embedded netHTTPClient *)
}.

Definition newThrottledHTTPClient (client : Transport) (maxRequests : Z)
  : outcome throttledHTTPClient :=
  match makeSemaphore maxRequests with
  | Panics reason => Panics reason
  | Returns s => Returns (mkThrottledHTTPClient s client)
  end.

(** *** [throttledClient.Do] under concurrent callers

    [Do] is [Lock(); defer Unlock(); return netHTTPClient.Do(req)].  A caller
    is at one of four places: before the send, inside the call of the
    wrapped client, at the deferred receive (the wrapped call has returned
    or panicked), or out of [Do].  The two counters record how many sends and
    receives the caller has completed. *)
Inductive exit : Type :=
| Returned      (* the wrapped Do returned its response and error *)
| Panicked.     (* the wrapped Do panicked; the deferred call still runs *)

Inductive place : Type :=
| AtLock
| InCall
| AtUnlock (o : exit)
| Left (o : exit).

Record caller : Type := mkCaller { at_ : place; acquired : nat; released : nat }.

Record clientState : Type := mkClientState {
  sem : semaphore;
  callers : list caller
}.

(** Caller [i] takes its next step, if it can; [o] is how the wrapped call
    ends when that is the step taken.  [None]: the caller is parked on the
    channel, has left [Do], or does not exist. *)
Definition stepAt (i : nat) (o : exit) (σ : clientState) : option clientState :=
  match callers σ !! i with
  | None => None
  | Some c =>
      match at_ c with
      | AtLock =>
          match Lock (sem σ) with
          | Some s =>
              Some (mkClientState s
                      (<[i := mkCaller InCall (S (acquired c)) (released c)]> (callers σ)))
          | None => None
          end
      | InCall =>
          Some (mkClientState (sem σ)
                  (<[i := mkCaller (AtUnlock o) (acquired c) (released c)]> (callers σ)))
      | AtUnlock o' =>
          match Unlock (sem σ) with
          | Some s =>
              Some (mkClientState s
                      (<[i := mkCaller (Left o') (acquired c) (S (released c))]> (callers σ)))
          | None => None
          end
      | Left _ => None
      end
  end.

(** A schedule names, step after step, the caller the scheduler picks; a
    caller that cannot step is left where it is. *)
Fixpoint run (schedule : list (nat * exit)) (σ : clientState) : clientState :=
  match schedule with
  | [] => σ
  | (i, o) :: rest => run rest (default σ (stepAt i o σ))
  end.

(** [m] goroutines about to call [Do] on a client made with
    [newThrottledHTTPClient(client, n)]. *)
Definition start (n : Z) (m : nat) : clientState :=
  mkClientState (mkSemaphore n 0) (replicate m (mkCaller AtLock 0 0)).

Definition inCall (c : caller) : bool :=
  match at_ c with InCall => true | _ => false end.

(** The number of calls of the wrapped client in flight. *)
Definition inFlight (σ : clientState) : Z :=
  Z.of_nat (length (filter (fun c => inCall c = true) (callers σ))).

(** ** Package [sling]: the connection pool (src/trunk/connection_pool.go) *)

Definition DefaultPoolSize : Z := 8.

Record Config : Type := mkConfig {
  PoolSize : Z;
  SkipSSLValidation : bool
}.

Record pool : Type := mkPool {
  poolConfig : Config;                   (* the embedded Config *)
  poolClient : throttledHTTPClient       (* the embedded netHTTPClient *)
}.

Definition NewConnectionPool (config : Config) : outcome pool :=
  let poolSize := PoolSize config in
  let poolSize := if poolSize <=? 0 then DefaultPoolSize else poolSize in
  match newThrottledHTTPClient
          (mkTransport poolSize (SkipSSLValidation config)) poolSize with
  | Panics reason => Panics reason
  | Returns client => Returns (mkPool config client)
  end.

(** [err.Error()]. *)
Definition errorMessage (e : error) : string :=
  match e with
  | errorString msg => msg
  | urlError op u err => op +:+ " " +:+ gostrings.quote u +:+ ": " +:+ err
  | SyntaxError msg _ => msg
  | InvalidUnmarshalError typ => "json: Unmarshal(non-pointer " +:+ typ +:+ ")"
  | UnmarshalTypeError value typ =>
      "json: cannot unmarshal " +:+ value +:+ " into Go value of type " +:+ typ
  | ioEOF => "EOF"
  | ioErrUnexpectedEOF => "unexpected EOF"
  | customError _ msg => msg
  end.


(** The URL [http.NewRequest] gives the request: the text parsed again, the
    empty port dropped. *)
Definition requestURLOf (u : url.URL) : url.URL :=
  url.mkURL (url.Scheme u) (url.Opaque u) (url.User u)
            (http.removeEmptyPort (url.Host u)) (url.Path u)
            (url.ForceQuery u) (url.RawQuery u) (url.Fragment u).

(** ** Vocabulary of the statements about paths *)






(** A sequence of [Header] calls on a builder, first call first. *)
Definition headerCalls (calls : list (string * string)) (request : jsonRequest)
  : jsonRequest :=
  fold_left (fun r nv => Header (fst nv) (snd nv) r) calls request.

(** Every key of the header map is in canonical form. *)
Definition canonicalKeys (h : http.Header) : Prop :=
  forall k vs, h !! k = Some vs -> http.CanonicalMIMEHeaderKey k = k.

(** A caller that holds a permit: it has sent on the channel and not yet
    received. *)
Definition holds (c : caller) : bool :=
  match at_ c with
  | InCall | AtUnlock _ => true
  | AtLock | Left _ => false
  end.

Fixpoint held (cs : list caller) : nat :=
  match cs with
  | [] => 0
  | c :: r => (if holds c then 1 else 0) + held r
  end.

(** The counters of a caller agree with the place it is at. *)
Definition counted (c : caller) : Prop :=
  match at_ c with
  | AtLock => acquired c = 0%nat /\ released c = 0%nat
  | InCall | AtUnlock _ => acquired c = 1%nat /\ released c = 0%nat
  | Left _ => acquired c = 1%nat /\ released c = 1%nat
  end.

(** The invariant of [Do]: the channel holds one element for each caller
    between its send and its receive. *)
Definition throttled (n : Z) (σ : clientState) : Prop :=
  cap (sem σ) = n
  /\ len (sem σ) = Z.of_nat (held (callers σ))
  /\ len (sem σ) <= n
  /\ Forall counted (callers σ).

(** ** Vocabulary of the further properties *)

(** Where [OnHTTPResponse] decodes. *)
Definition decodesInto (responder : jsonRequest) (res : http.Response) (target : dyn)
  : Prop :=
  (http.StatusCode res < 400 /\ success responder = Some target)
  \/ (400 <= http.StatusCode res
      /\ statusErrors responder !! http.StatusCode res = None
      /\ failure responder = Some target).

Fixpoint slashes (k : nat) : string :=
  match k with
  | O => ""
  | S k' => String "/" (slashes k')
  end.

(** The steps a caller still has to take to leave [Do]. *)
Definition stepsLeft (c : caller) : nat :=
  match at_ c with
  | AtLock => 3
  | InCall => 2
  | AtUnlock _ => 1
  | Left _ => 0
  end.

Fixpoint pending (cs : list caller) : nat :=
  match cs with
  | [] => 0
  | c :: r => stepsLeft c + pending r
  end.

(** The schedule that admits the callers [0] to [k-1], in this order. *)
Definition admitFirst (k : nat) : list (nat * exit) :=
  map (fun i => (i, Returned)) (seq 0 k).


(** ** Package [httpmock]: the mock transport (src/httpmock/transport.go)

    [testing.T] is modelled as far as the transport uses it: whether the
    test has failed and what it has logged.  [t.Fatalf] logs, marks the test
    failed and ends the calling goroutine, so an assertion has one of three
    ends. *)
Module httpmock.

Record T : Type := mkT { failed : bool; output : list string }.

(** [t.Errorf] and [t.Log]; [t.Fatalf] records like [Errorf] and then stops
    the test. *)
Definition Errorf (msg : string) (t : T) : T := mkT true (output t ++ [msg]).
Definition Log (msg : string) (t : T) : T := mkT (failed t) (output t ++ [msg]).

Inductive verdict : Type :=
| Continues (t : T)              (* the assertion returned *)
| FailNow (t : T)                (* t.Fatalf: the test goroutine exits *)
| Crashes (reason : string).     (* a run-time panic *)

(** [stringReaderCloser]: the unread text and the flag [Close] sets. *)
Record stringReaderCloser : Type := mkStringReaderCloser {
  Reader : string;
  closed : bool
}.

Definition newClosableStringReader (s : string) : stringReaderCloser :=
  mkStringReaderCloser s false.

Definition Close (src : stringReaderCloser) : stringReaderCloser :=
  mkStringReaderCloser (Reader src) true.

(** The fields of [http.Response] the transport sets; [Body] is nil until
    a body is set. *)
Record Response : Type := mkResponse {
  StatusCode : Z;
  Body : option stringReaderCloser
}.

Record Transport : Type := mkTransport {
  request : option http.Request;
  response : Response;
  error_ : option error;
  t : T
}.

Definition NewTransport (t : T) : Transport :=
  mkTransport None (mkResponse 0 None) None t.

Definition SetResponseStatusCode (statusCode : Z) (fake : Transport) : Transport :=
  mkTransport (request fake) (mkResponse statusCode (Body (response fake)))
              (error_ fake) (t fake).

Definition SetResponseBody (body : string) (fake : Transport) : Transport :=
  mkTransport (request fake)
              (mkResponse (StatusCode (response fake))
                          (Some (newClosableStringReader body)))
              (error_ fake) (t fake).

(** [json.Marshal(data)]: the encoding of the dynamic type, [null] for the
    nil interface. *)
Definition Marshal (data : JSON) : error + string :=
  match data with
  | Some v => jsonMarshal (dynType v) (dynValue v)
  | None => inr "null"
  end.

(** The result is the transport, or the test stopped by [t.Fatalf]. *)
Definition SetResponseBodyJSON (data : JSON) (fake : Transport) : Transport + T :=
  match Marshal data with
  | inl err =>
      inr (Errorf ("Failed to set response body JSON: " +:+ errorMessage err) (t fake))
  | inr result => inl (SetResponseBody result fake)
  end.

Definition SetResponseBodyInvalidJSON (fake : Transport) : Transport :=
  SetResponseBody "{[" fake.

Definition SetResponseError (fake : Transport) : Transport :=
  match error_ fake with
  | None =>
      mkTransport (request fake) (response fake)
                  (Some (errorString "Fake HTTP transport error")) (t fake)
  | Some _ => fake
  end.

(** [fake.RoundTrip(req)]: the transport as the call leaves it, and the
    error or the response returned (the response is the one the transport
    holds). *)
Definition RoundTrip (req : http.Request) (fake : Transport)
  : Transport * (error + Response) :=
  let fake := mkTransport (Some req) (response fake) (error_ fake) (t fake) in
  match error_ fake with
  | Some err => (fake, inl err)
  | None =>
      let fake :=
        match Body (response fake) with
        | None => SetResponseBody "" fake
        | Some _ => fake
        end in
      (fake, inr (response fake))
  end.

(** The caller's [res.Body.Close()] on the response [RoundTrip] returned:
    that response is the one the transport holds, so the flag is set in the
    transport. *)
Definition CloseResponseBody (fake : Transport) : Transport :=
  mkTransport (request fake)
              (mkResponse (StatusCode (response fake))
                          (Close <$> Body (response fake)))
              (error_ fake) (t fake).

Definition assertRequestMade (fake : Transport) : verdict :=
  match request fake with
  | None => FailNow (Errorf "No HTTP requests were made." (t fake))
  | Some _ => Continues (t fake)
  end.

(** The comparison every assertion ends with: [t.Errorf] when the strings
    differ. *)
Definition expect (actual expected msg : string) (t : T) : verdict :=
  if negb (String.eqb actual expected) then Continues (Errorf msg t) else Continues t.

Definition AssertRequestMethod (method : string) (fake : Transport) : verdict :=
  match assertRequestMade fake with
  | Continues t =>
      match request fake with
      | None => Crashes nilDereference
      | Some req =>
          expect (http.Method req) method
                 ("Expected HTTP request to be made with method " +:+ method
                  +:+ ", but was " +:+ http.Method req) t
      end
  | stopped => stopped
  end.

Definition AssertRequestProtocolIsHTTP (fake : Transport) : verdict :=
  match request fake with
  | None => Crashes nilDereference
  | Some req =>
      expect (url.Scheme (http.URL req)) "http"
             ("Expected HTTP request to have been made with protocol 'http', but was '"
              +:+ url.Scheme (http.URL req) +:+ "'") (t fake)
  end.

Definition AssertRequestHost (host : string) (fake : Transport) : verdict :=
  match request fake with
  | None => Crashes nilDereference
  | Some req =>
      expect (url.Host (http.URL req)) host
             ("Expected HTTP request to have been made to host '" +:+ host
              +:+ "', but was '" +:+ url.Host (http.URL req) +:+ "'") (t fake)
  end.

Definition AssertRequestPath (path : string) (fake : Transport) : verdict :=
  match assertRequestMade fake with
  | Continues t =>
      match request fake with
      | None => Crashes nilDereference
      | Some req =>
          expect (url.Path (http.URL req)) path
                 ("Expected HTTP request to have path '" +:+ path
                  +:+ "', but was '" +:+ url.Path (http.URL req) +:+ "'") t
      end
  | stopped => stopped
  end.

Definition AssertRequestContentType (contentType : string) (fake : Transport)
  : verdict :=
  match assertRequestMade fake with
  | Continues t =>
      match request fake with
      | None => Crashes nilDereference
      | Some req =>
          expect (http.Get (http.Header_ req) "Content-Type") contentType
                 ("Expected HTTP request to be made with content type '"
                  +:+ contentType +:+ "', but was '"
                  +:+ http.Get (http.Header_ req) "Content-Type" +:+ "'") t
      end
  | stopped => stopped
  end.

Definition AssertRequestAccepts (contentType : string) (fake : Transport) : verdict :=
  match assertRequestMade fake with
  | Continues t =>
      match request fake with
      | None => Crashes nilDereference
      | Some req =>
          expect (http.Get (http.Header_ req) "Accept") contentType
                 ("Expected HTTP request to accept a response of content type '"
                  +:+ contentType +:+ "', but accepts '"
                  +:+ http.Get (http.Header_ req) "Accept" +:+ "' instead") t
      end
  | stopped => stopped
  end.

(** A request made by [http.NewRequest] from a buffer always has a body, so
    the branch for the nil body is not modelled; [cb] is the callback. *)
Definition AssertRequestBodyJSON (cb : json.Decoder -> T -> verdict) (fake : Transport)
  : verdict :=
  match request fake with
  | None => Crashes nilDereference
  | Some req => cb (json.NewDecoder (http.Body req)) (t fake)
  end.

Definition AssertResponseBodyClosed (fake : Transport) : verdict :=
  match Body (response fake) with
  | Some src =>
      if negb (closed src)
      then Continues (Errorf "HTTP response body was not closed" (t fake))
      else Continues (t fake)
  | None =>
      Continues (Log "Cannot determine response body closed status, skipping" (t fake))
  end.

(** [fakeConnectionPool.HTTP] (also in src/slingmock/connection_pool.go):
    the error of [url.Parse] is dropped and the error returned is nil. *)
Record fakeHTTP : Type := mkFakeHTTP {
  Client : Transport;          (* the http.Client around the transport *)
  URL : option url.URL
}.

Definition HTTP (baseURL : string) (transport : Transport) : fakeHTTP * option error :=
  (mkFakeHTTP transport
              (match url.Parse baseURL with
               | inr u => Some u
               | inl _ => None
               end),
   None).

End httpmock.

(** A Go [chan int] handed over as a body: [encoding/json] cannot encode a
    channel. *)
Definition chanValue : GoType :=
  mkGoType "chan int" unit
           (fun _ => inl (customError "*json.UnsupportedTypeError"
                                      "json: unsupported type: chan int"))
           (fun _ v => (Some (InvalidUnmarshalError "chan int"), v))
           None None.

(** * Properties *)

(** ** The models of the standard library and the test suite, run *)

Example url_parse_base :
  url.Parse "http://example.com/doc/"
  = inr (url.mkURL "http" "" None "example.com" "/doc/" false "" "").
Proof. reflexivity. Qed.

Example url_resolve_rel :
  url.resolvePath "/doc/" "some/path" = "/doc/some/path".
Proof. reflexivity. Qed.

Example url_resolve_abs :
  url.resolvePath "/doc/" "/some/path" = "/some/path".
Proof. reflexivity. Qed.

Example url_resolve_dots :
  url.resolvePath "/a/b/c" "../d/./e/.." = "/a/d/".
Proof. reflexivity. Qed.

Example url_string_base :
  (match url.Parse "http://u@example.com:80/doc/?q=1#f" with
   | inr u => url.String_ u | inl _ => "" end) = "http://u@example.com:80/doc/?q=1#f".
Proof. reflexivity. Qed.

Example url_parse_colon : url.Parse ":" = inl (urlError "parse" ":" "missing protocol scheme").
Proof. reflexivity. Qed.

Example json_readValue_bad :
  json.readValue "{["
  = inl (SyntaxError "invalid character '[' looking for beginning of object key string" 2).
Proof. reflexivity. Qed.

Example json_readValue_obj : json.readValue "{}" = inr 2%nat.
Proof. reflexivity. Qed.

Example json_readValue_nested :
  json.readValue " [1, -2.5e3, true, null, {}, [ ]] x" = inr 33%nat.
Proof. reflexivity. Qed.

Example json_readValue_truncated : json.readValue "[1, 2" = inl ioErrUnexpectedEOF.
Proof. reflexivity. Qed.

Example json_readValue_empty : json.readValue "  " = inl ioEOF.
Proof. reflexivity. Qed.

Example canonical_key : http.CanonicalMIMEHeaderKey "content-TYPE" = "Content-Type".
Proof. reflexivity. Qed.

Example canonical_key_space : http.CanonicalMIMEHeaderKey "x foo" = "x foo".
Proof. reflexivity. Qed.

Example test_RequestReceivesRegisteredError :
  match tests.Do (tests.newResponse 499 "{[")
                 (StatusError 499 (Some (errorString "HTTP 499")) (JSONRequest "" "")) with
  | Returns (inr (_, r)) => returned r
  | _ => None
  end = Some (errorString "HTTP 499").
Proof. vm_compute. reflexivity. Qed.

Example test_RequestRetrievesBadJSON :
  match tests.Do (tests.newResponse 404 "{[")
                 (Response (Some (mkDyn tests.stringValue "")) (JSONRequest "" "")) with
  | Returns (inr (_, r)) => returned r
  | _ => None
  end = Some (SyntaxError "invalid character '[' looking for beginning of object key string" 2).
Proof. vm_compute. reflexivity. Qed.

Example test_RequestFailsWithAnErrorResponseBodySet :
  match tests.Do (tests.newResponse 500 (tests.messageBody "Error Message"))
                 (Failure (Some (mkDyn tests.errorResponse "")) (JSONRequest "" "")) with
  | Returns (inr (_, r)) => returned r
  | _ => None
  end = Some (customError "*sling_test.errorResponse" "Error Message").
Proof. vm_compute. reflexivity. Qed.

Example failure_target_without_methods :
  returned (OnHTTPResponse
              (tests.responderOf
                 (Failure (Some (mkDyn tests.plainResponse "")) (JSONRequest "PUT" "x")))
              (tests.newResponse 409 (tests.messageBody "conflict")))
  = Some (errorString "request PUT http://example.com/doc/x as JSON returned status 409").
Proof. vm_compute. reflexivity. Qed.

Example failure_target_type_error :
  returned (OnHTTPResponse
              (tests.responderOf
                 (Failure (Some (mkDyn tests.errorResponse "")) (JSONRequest "PUT" "x")))
              (tests.newResponse 409 "[1, 2]"))
  = Some (UnmarshalTypeError "array" "sling_test.errorResponse").
Proof. vm_compute. reflexivity. Qed.

Example test_RequestUsesThePathRelativeToTheBaseURL :
  match tests.Do (tests.newResponse 200 "{}") (JSONRequest "" "/some/path") with
  | Returns (inr (req, _)) => url.Path (http.URL req)
  | _ => ""
  end = "/doc/some/path".
Proof. vm_compute. reflexivity. Qed.

Example test_RequestSuppliesAppropriateHeaders :
  match tests.Do (tests.newResponse 200 "{}") (JSONRequest "" "") with
  | Returns (inr (req, _)) =>
      (http.Get (http.Header_ req) "Content-Type", http.Get (http.Header_ req) "Accept")
  | _ => ("", "")
  end = ("application/json", "application/json").
Proof. vm_compute. reflexivity. Qed.

Example test_DefaultError :
  match HTTPRequest (match url.Parse "http://no.such.domain.xxx" with
                     | inr u => Some u | inl _ => None end)
                    (JSONRequest "OPTIONS" "/api/v1/to/madness") with
  | Returns (responder, inr _) => returned (OnHTTPResponse responder (tests.newResponse 500 ""))
  | _ => None
  end = Some (errorString
    "request OPTIONS http://no.such.domain.xxx/api/v1/to/madness as JSON returned status 500").
Proof. vm_compute. reflexivity. Qed.

(** ** Response resolution: status 400 and above *)
Section ResponseResolution.
Variable responder : jsonRequest.
Variable res : http.Response.

Let code := http.StatusCode res.
Let fresh := json.NewDecoder (http.ResponseBody res).

Lemma OnHTTPResponse_override (e : option error) :
  400 <= code ->
  statusErrors responder !! code = Some e ->
  OnHTTPResponse responder res = mkResponded e fresh None.
Proof.
  intros Hcode Hlook. unfold OnHTTPResponse.
  destruct (Z.ltb_spec (http.StatusCode res) http.StatusBadRequest) as [Hlt|_].
  - unfold http.StatusBadRequest in Hlt. subst code. lia.
  - subst code. rewrite Hlook. reflexivity.
Qed.


Lemma OnHTTPResponse_failure (target v : dyn) (dec : json.Decoder) (e : option error) :
  400 <= code ->
  statusErrors responder !! code = None ->
  failure responder = Some target ->
  Decode fresh target = (dec, e, v) ->
  OnHTTPResponse responder res
  = mkResponded
      (match e with
       | Some err => Some err
       | None =>
           match AsError (dynType v) with
           | Some asError => asError (dynValue v)
           | None =>
               match asErrorValue v with
               | Some e' => Some e'
               | None =>
                   Some (errorString ("request " +:+ method responder +:+ " "
                                      +:+ formatURL (URL responder)
                                      +:+ " as JSON returned status "
                                      +:+ formatInt code))
               end
           end
       end) dec (Some v).
Proof.
  intros Hcode Hlook Hfail Hdec. unfold OnHTTPResponse.
  destruct (Z.ltb_spec (http.StatusCode res) http.StatusBadRequest) as [Hlt|_].
  - unfold http.StatusBadRequest in Hlt. subst code. lia.
  - subst code fresh. rewrite Hlook, Hfail, Hdec.
    destruct e; [reflexivity|].
    destruct (AsError (dynType v)); [reflexivity|].
    destruct (asErrorValue v); reflexivity.
Qed.

End ResponseResolution.

(** [Decode] keeps the dynamic type of its target. *)
Lemma Decode_dynType (dec dec' : json.Decoder) (target v : dyn) (e : option error) :
  Decode dec target = (dec', e, v) -> dynType v = dynType target.
Proof.
  unfold Decode. destruct (json.Decode _ _ _) as [[d e'] x].
  intros H. inversion H. reflexivity.
Qed.

(** A body the scanner rejects reaches the caller of [Decode] as the
    scanner's error, and the target is not written. *)
Lemma Decode_scan_error (body : string) (target : dyn) (e : error) :
  json.readValue body = inl e ->
  Decode (json.NewDecoder body) target
  = (json.mkDecoder body (Some e), Some e, target).
Proof.
  intros H. unfold Decode, json.Decode, json.NewDecoder, json.err, json.buf.
  rewrite H. destruct target; reflexivity.
Qed.

Lemma StatusError_registers (statusCode : Z) (err : option error) (request : jsonRequest) :
  statusErrors (StatusError statusCode err request) !! statusCode = Some err.
Proof. cbn. apply lookup_insert_eq. Qed.

(** C1. For a response with status 400 or above whose status code has an
    error registered with [StatusError], [OnHTTPResponse] returns exactly the
    registered error, whatever the body holds and whether or not a failure
    target is registered; nothing is decoded: the decoder has read nothing of
    the body and no target was written. *)
Theorem C1_registered_status_error_returned
        (request : jsonRequest) (statusCode : Z) (err : option error)
        (responder : jsonRequest) (res : http.Response) :
  400 <= http.StatusCode res ->
  (statusErrors responder !! http.StatusCode res = Some err
   \/ (responder = StatusError statusCode err request
       /\ http.StatusCode res = statusCode)) ->
  returned (OnHTTPResponse responder res) = err
  /\ decoded (OnHTTPResponse responder res) = None
  /\ decoder (OnHTTPResponse responder res) = json.NewDecoder (http.ResponseBody res).
Proof.
  intros Hcode Hreg.
  assert (Hlook : statusErrors responder !! http.StatusCode res = Some err).
  { destruct Hreg as [H | [-> <-]]; [exact H | apply StatusError_registers]. }
  rewrite (OnHTTPResponse_override responder res err Hcode Hlook).
  repeat split.
Qed.

Lemma C1_registered_status_error_returned_witness :
  let responder :=
    StatusError 499 (Some (errorString "HTTP 499"))
                (Failure (Some (mkDyn tests.errorResponse "")) (JSONRequest "" "")) in
  let res := tests.newResponse 499 "{[" in
  returned (OnHTTPResponse responder res) = Some (errorString "HTTP 499")
  /\ decoded (OnHTTPResponse responder res) = None
  /\ decoder (OnHTTPResponse responder res) = json.NewDecoder "{[".
Proof.
  intros responder res.
  apply (C1_registered_status_error_returned
           (Failure (Some (mkDyn tests.errorResponse "")) (JSONRequest "" ""))
           499 (Some (errorString "HTTP 499")) responder res).
  - simpl. lia.
  - right. split; reflexivity.
Defined.

(** C5, as the code has it. For a response with status 400 or above whose
    body the JSON scanner rejects with a syntax error, when a failure target
    is registered and no status override matches, [OnHTTPResponse] returns
    that very syntax error, not wrapped. *)
Theorem C5_bad_json_with_failure_target
        (responder : jsonRequest) (res : http.Response) (target : dyn)
        (msg : string) (offset : Z) :
  400 <= http.StatusCode res ->
  statusErrors responder !! http.StatusCode res = None ->
  failure responder = Some target ->
  json.readValue (http.ResponseBody res) = inl (SyntaxError msg offset) ->
  returned (OnHTTPResponse responder res) = Some (SyntaxError msg offset).
Proof.
  intros Hcode Hlook Hfail Hscan.
  rewrite (OnHTTPResponse_failure responder res target target _ _
             Hcode Hlook Hfail (Decode_scan_error _ target _ Hscan)).
  reflexivity.
Qed.

Lemma C5_bad_json_with_failure_target_witness :
  returned (OnHTTPResponse
              (Response (Some (mkDyn tests.stringValue "")) (JSONRequest "" ""))
              (tests.newResponse 404 "{["))
  = Some (SyntaxError
            "invalid character '[' looking for beginning of object key string" 2).
Proof.
  apply (C5_bad_json_with_failure_target
           (Response (Some (mkDyn tests.stringValue "")) (JSONRequest "" ""))
           (tests.newResponse 404 "{[") (mkDyn tests.stringValue "")).
  - simpl. lia.
  - reflexivity.
  - reflexivity.
  - reflexivity.
Defined.

(** C5, as stated, fails: with no failure target the body is not decoded, and
    a 404 whose body is the two bytes of an unfinished object yields the
    default error, which is not a JSON syntax error. *)
Lemma C5_no_failure_target_counterexample :
  ~ (forall (responder : jsonRequest) (res : http.Response) (e : error),
        400 <= http.StatusCode res ->
        json.readValue (http.ResponseBody res) = inl e ->
        failure responder = None ->
        statusErrors responder !! http.StatusCode res = None ->
        exists e', returned (OnHTTPResponse responder res) = Some e'
                   /\ isSyntaxError e' = true).
Proof.
  intros H.
  destruct (H (tests.responderOf (JSONRequest "" "")) (tests.newResponse 404 "{[")
              (SyntaxError
                 "invalid character '[' looking for beginning of object key string" 2))
    as [e' [Hret Hsyn]].
  - simpl. lia.
  - reflexivity.
  - reflexivity.
  - reflexivity.
  - vm_compute in Hret. inversion Hret. subst e'. discriminate Hsyn.
Qed.

(** C6. For a response with status 400 or above, no matching status
    override and a registered failure target, [OnHTTPResponse] decodes the
    body into the failure target.  A decode error is returned as it is.
    After a successful decode the result is [AsError()] when the target is
    an [Errorable], else the target itself when it is an [error], else the
    default error. *)
Theorem C6_failure_target_resolution
        (responder : jsonRequest) (res : http.Response)
        (target v : dyn) (dec : json.Decoder) (e : option error) :
  400 <= http.StatusCode res ->
  statusErrors responder !! http.StatusCode res = None ->
  failure responder = Some target ->
  Decode (json.NewDecoder (http.ResponseBody res)) target = (dec, e, v) ->
  let r := OnHTTPResponse responder res in
  (decoded r = Some v /\ decoder r = dec /\ dynType v = dynType target)
  /\ (forall err, e = Some err -> returned r = Some err)
  /\ (e = None ->
      (forall asError, AsError (dynType v) = Some asError ->
                       returned r = asError (dynValue v))
      /\ (AsError (dynType v) = None ->
          (forall msg, Error (dynType v) = Some msg ->
                       returned r
                       = Some (customError (typeName (dynType v)) (msg (dynValue v))))
          /\ (Error (dynType v) = None ->
              returned r
              = Some (errorString
                        ("request " +:+ method responder +:+ " "
                         +:+ formatURL (URL responder)
                         +:+ " as JSON returned status "
                         +:+ formatInt (http.StatusCode res)))))).
Proof.
  intros Hcode Hlook Hfail Hdec r. subst r.
  rewrite (OnHTTPResponse_failure responder res target v dec e Hcode Hlook Hfail Hdec).
  pose proof (Decode_dynType _ _ _ _ _ Hdec) as Hty.
  cbn [returned decoded decoder].
  split; [auto|]. split.
  - intros err ->. reflexivity.
  - intros ->. unfold asErrorValue. split.
    + intros asError ->. reflexivity.
    + intros ->. split.
      * intros msg ->. reflexivity.
      * intros ->. reflexivity.
Qed.

Lemma C6_failure_target_resolution_witness :
  let responder :=
    tests.responderOf (Failure (Some (mkDyn tests.errorableResponse "")) (JSONRequest "" "")) in
  let res := tests.newResponse 500 (tests.messageBody "Error Message") in
  returned (OnHTTPResponse responder res) = Some (errorString "Error Message").
Proof.
  intros responder res.
  destruct (C6_failure_target_resolution responder res
              (mkDyn tests.errorableResponse "")
              (mkDyn tests.errorableResponse "Error Message")
              (json.mkDecoder "" None) None) as [_ [_ H]].
  - simpl. lia.
  - reflexivity.
  - reflexivity.
  - reflexivity.
  - destruct (H eq_refl) as [Has _].
    exact (Has (fun m => Some (errorString m)) eq_refl).
Defined.



(** ** The connection pool *)

(** C9. [NewConnectionPool] makes its throttled client, and with it the
    semaphore, with capacity [DefaultPoolSize], which is 8, when
    [PoolSize] is zero or negative, and with capacity [PoolSize] when it is
    positive. *)
Theorem C9_pool_capacity (config : Config) :
  DefaultPoolSize = 8
  /\ exists p : pool,
       NewConnectionPool config = Returns p
       /\ poolConfig p = config
       /\ len (throttle (poolClient p)) = 0
       /\ (PoolSize config <= 0 -> cap (throttle (poolClient p)) = 8)
       /\ (0 < PoolSize config -> cap (throttle (poolClient p)) = PoolSize config).
Proof.
  split; [reflexivity|].
  unfold NewConnectionPool, newThrottledHTTPClient, makeSemaphore, DefaultPoolSize.
  destruct (Z.leb_spec (PoolSize config) 0) as [Hle|Hgt].
  - eexists. split; [reflexivity|]. cbn. repeat split; lia.
  - destruct (Z.ltb_spec (PoolSize config) 0) as [Hneg|_]; [lia|].
    eexists. split; [reflexivity|]. cbn. repeat split; lia.
Qed.

Lemma C9_pool_capacity_witness :
  (exists p, NewConnectionPool (mkConfig (-3) false) = Returns p
             /\ cap (throttle (poolClient p)) = 8)
  /\ (exists p, NewConnectionPool (mkConfig 0 true) = Returns p
                /\ cap (throttle (poolClient p)) = 8)
  /\ (exists p, NewConnectionPool (mkConfig 3 false) = Returns p
                /\ cap (throttle (poolClient p)) = 3).
Proof.
  split; [|split].
  - destruct (C9_pool_capacity (mkConfig (-3) false)) as [_ (p & Hp & _ & _ & Hle & _)].
    exists p. split; [exact Hp|]. apply Hle. simpl. lia.
  - destruct (C9_pool_capacity (mkConfig 0 true)) as [_ (p & Hp & _ & _ & Hle & _)].
    exists p. split; [exact Hp|]. apply Hle. simpl. lia.
  - destruct (C9_pool_capacity (mkConfig 3 false)) as [_ (p & Hp & _ & _ & _ & Hgt)].
    exists p. split; [exact Hp|]. apply Hgt. simpl. lia.
Defined.

(** ** Request resolution *)

(** C10. [HTTPRequest] is not total in the path: when [url.Parse] rejects
    the path with its leading slashes trimmed, the error is dropped, the
    base URL is resolved against a nil reference, and the call panics with a
    nil dereference; it does not return an error. *)
Theorem C10_unparsable_path_panics
        (baseURL : option url.URL) (request : jsonRequest) (e : error) :
  url.Parse (gostrings.TrimLeft (path request) "/") = inl e ->
  HTTPRequest baseURL request = Panics nilDereference
  /\ (forall responder result,
         HTTPRequest baseURL request <> Returns (responder, result)).
Proof.
  intros Hparse. unfold HTTPRequest. rewrite Hparse.
  unfold ResolveReferencePtr. split; [reflexivity|]. discriminate.
Qed.

Lemma C10_unparsable_path_panics_witness :
  url.Parse (gostrings.TrimLeft "/:" "/")
  = inl (urlError "parse" ":" "missing protocol scheme")
  /\ HTTPRequest tests.requestURL (JSONRequest "GET" "/:") = Panics nilDereference.
Proof.
  split; [reflexivity|].
  apply (C10_unparsable_path_panics tests.requestURL (JSONRequest "GET" "/:")
           (urlError "parse" ":" "missing protocol scheme")).
  reflexivity.
Defined.

Lemma NewRequest_URL (method urlStr body : string) (req : http.Request) :
  http.NewRequest method urlStr body = inr req ->
  exists u, url.Parse urlStr = inr u /\ http.URL req = requestURLOf u.
Proof.
  unfold http.NewRequest.
  destruct (negb (http.validMethod _)); [discriminate|].
  destruct (url.Parse urlStr) as [|u]; [discriminate|].
  intros H. inversion H. exists u. split; reflexivity.
Qed.

(** When the trimmed path parses, [HTTPRequest] does not panic: it stores
    the resolved URL in the request and goes on to build the
    [*http.Request] from the text of that URL. *)
Lemma HTTPRequest_resolves (baseURL : option url.URL) (request : jsonRequest)
      (ref u : url.URL) :
  url.Parse (gostrings.TrimLeft (path request) "/") = inr ref ->
  ResolveReferencePtr baseURL (Some ref) = Returns u ->
  exists result,
    HTTPRequest baseURL request = Returns (setURL u request, result)
    /\ forall req, result = inr req ->
         exists u', url.Parse (url.String_ u) = inr u'
                    /\ http.URL req = requestURLOf u'.
Proof.
  intros Hparse Hres. unfold HTTPRequest. rewrite Hparse, Hres.
  destruct (match body (setURL u request) with
            | Some v => Encode v | None => inr "" end) as [err|buffer].
  { eexists. split; [reflexivity|]. discriminate. }
  destruct (http.NewRequest (method (setURL u request)) (url.String_ u) buffer)
    as [err|req0] eqn:Hnew.
  { eexists. split; [reflexivity|]. discriminate. }
  eexists. split; [reflexivity|].
  intros req Heq. inversion Heq. subst req.
  destruct (NewRequest_URL _ _ _ _ Hnew) as (u' & Hp & Hu).
  exists u'. split; [exact Hp|]. exact Hu.
Qed.

(** C4, as the code has it. For the base URL [http://example.com/doc/] and
    the requested path [/some/path], the leading slash is trimmed before the
    path is parsed, so the path of the resolved URL, and of the request
    built from it, is [/doc/some/path]: the path of the base URL is kept. *)
Theorem C4_leading_slash_keeps_base_path (request : jsonRequest) :
  path request = "/some/path" ->
  exists responder result,
    HTTPRequest tests.requestURL request = Returns (responder, result)
    /\ url.Path <$> URL responder = Some "/doc/some/path"
    /\ forall req, result = inr req ->
         url.Path (http.URL req) = "/doc/some/path".
Proof.
  intros Hpath.
  destruct (HTTPRequest_resolves tests.requestURL request
              (url.mkURL "" "" None "" "some/path" false "" "")
              (url.mkURL "http" "" None "example.com" "/doc/some/path" false "" ""))
    as (result & Hreq & Hurl).
  - rewrite Hpath. reflexivity.
  - reflexivity.
  - exists (setURL (url.mkURL "http" "" None "example.com" "/doc/some/path" false "" "")
                   request), result.
    split; [exact Hreq|]. split; [reflexivity|].
    intros req Hres. destruct (Hurl req Hres) as (u' & Hp & ->).
    vm_compute in Hp. inversion Hp. reflexivity.
Qed.

Lemma C4_leading_slash_keeps_base_path_witness :
  exists responder result,
    HTTPRequest tests.requestURL (JSONRequest "GET" "/some/path")
    = Returns (responder, result)
    /\ url.Path <$> URL responder = Some "/doc/some/path"
    /\ forall req, result = inr req ->
         url.Path (http.URL req) = "/doc/some/path".
Proof.
  apply (C4_leading_slash_keeps_base_path (JSONRequest "GET" "/some/path")).
  reflexivity.
Defined.

(** C4, as stated, fails: the request for [/some/path] against
    [http://example.com/doc/] does not have the path [/some/path]. *)
Lemma C4_base_path_discarded_counterexample :
  exists responder req,
    HTTPRequest tests.requestURL (JSONRequest "GET" "/some/path")
    = Returns (responder, inr req)
    /\ url.Path (http.URL req) = "/doc/some/path"
    /\ url.Path (http.URL req) <> "/some/path".
Proof.
  eexists _, _. split; [vm_compute; reflexivity|].
  split; [reflexivity|discriminate].
Qed.

(** ** Path resolution: strings, [url.Parse] and [resolvePath] *)
Section Paths.
Import gostrings.


























End Paths.




(** ** Request headers *)
Section Headers.
Import gostrings.

Lemma case_byte_fixed (upper : bool) (c : ascii) :
let c' := if upper then toUpperByte c else toLowerByte c in
(if upper then toUpperByte c' else toLowerByte c') = c'.
Proof.
destruct upper;
  destruct c as [[] [] [] [] [] [] [] []]; vm_compute; reflexivity.
Qed.

Lemma case_byte_token (upper : bool) (c : ascii) :
http.isToken (if upper then toUpperByte c else toLowerByte c) = http.isToken c.
Proof.
destruct upper;
  destruct c as [[] [] [] [] [] [] [] []]; vm_compute; reflexivity.
Qed.

Lemma canonicalize_fixed (s : string) (upper : bool) :
http.canonicalize upper (http.canonicalize upper s) = http.canonicalize upper s.
Proof.
revert upper. induction s as [|c r IH]; intros upper; [reflexivity|].
cbn [http.canonicalize].
pose proof (case_byte_fixed upper c) as Hc. cbv zeta in Hc.
rewrite Hc, IH. reflexivity.
Qed.

Lemma canonicalize_token (s : string) (upper : bool) :
http.allToken (http.canonicalize upper s) = http.allToken s.
Proof.
revert upper. induction s as [|c r IH]; intros upper; [reflexivity|].
cbn [http.canonicalize http.allToken].
rewrite case_byte_token, IH. reflexivity.
Qed.

Lemma CanonicalMIMEHeaderKey_fixed (s : string) :
http.CanonicalMIMEHeaderKey (http.CanonicalMIMEHeaderKey s)
= http.CanonicalMIMEHeaderKey s.
Proof.
unfold http.CanonicalMIMEHeaderKey.
destruct (http.allToken s) eqn:Ht.
- rewrite canonicalize_token, Ht. apply canonicalize_fixed.
- rewrite Ht. reflexivity.
Qed.

End Headers.

Lemma values_Add (name value key : string) (h : http.Header) :
  http.values (http.Add name value h) key
  = if decide (key = http.CanonicalMIMEHeaderKey name)
    then http.values h key ++ [value] else http.values h key.
Proof.
  unfold http.Add, http.values. destruct (decide _) as [->|Hne].
  - rewrite lookup_insert_eq. reflexivity.
  - rewrite lookup_insert_ne by congruence. reflexivity.
Qed.

Lemma values_Set (name value key : string) (h : http.Header) :
  http.values (http.Set_ name value h) key
  = if decide (key = http.CanonicalMIMEHeaderKey name)
    then [value] else http.values h key.
Proof.
  unfold http.Set_, http.values. destruct (decide _) as [->|Hne].
  - rewrite lookup_insert_eq. reflexivity.
  - rewrite lookup_insert_ne by congruence. reflexivity.
Qed.

Lemma values_Add_all (name key : string) (vs : list string) (h : http.Header) :
  http.values (fold_left (fun a value => http.Add name value a) vs h) key
  = if decide (key = http.CanonicalMIMEHeaderKey name)
    then http.values h key ++ vs else http.values h key.
Proof.
  revert h. induction vs as [|v vs IH]; intros h; cbn [fold_left].
  - destruct (decide _); [rewrite app_nil_r|]; reflexivity.
  - rewrite IH, values_Add. destruct (decide _); [|reflexivity].
    rewrite <- app_assoc. reflexivity.
Qed.

Lemma canonicalKeys_Add (name value : string) (h : http.Header) :
  canonicalKeys h -> canonicalKeys (http.Add name value h).
Proof.
  intros Hh k vs. unfold http.Add.
  destruct (decide (k = http.CanonicalMIMEHeaderKey name)) as [->|Hne].
  - intros _. apply CanonicalMIMEHeaderKey_fixed.
  - rewrite lookup_insert_ne by congruence. apply Hh.
Qed.

Lemma canonicalKeys_headerCalls (calls : list (string * string)) (request : jsonRequest) :
  canonicalKeys (headers request) -> canonicalKeys (headers (headerCalls calls request)).
Proof.
  revert request. induction calls as [|[n v] calls IH]; intros request H; [exact H|].
  cbn [headerCalls fold_left]. apply IH. cbn. apply canonicalKeys_Add. exact H.
Qed.

Lemma values_headerCalls (calls : list (string * string)) (request : jsonRequest)
      (key : string) :
  http.values (headers (headerCalls calls request)) key
  = http.values (headers request) key
    ++ (filter (fun nv => http.CanonicalMIMEHeaderKey (fst nv) = key) calls).*2.
Proof.
  revert request. induction calls as [|[n v] calls IH]; intros request.
  - cbn. rewrite app_nil_r. reflexivity.
  - cbn [headerCalls fold_left]. fold (headerCalls calls (Header n v request)).
    rewrite IH. cbn [Header headers fst snd]. rewrite values_Add.
    rewrite filter_cons. cbn [fst].
    destruct (decide (key = http.CanonicalMIMEHeaderKey n)) as [->|Hne].
    + rewrite decide_True by reflexivity. cbn. rewrite <- app_assoc. reflexivity.
    + rewrite decide_False by congruence. reflexivity.
Qed.

(** The loop over the accumulated headers copies them. *)
Lemma values_addAll (hs : http.Header) (key : string) :
  canonicalKeys hs -> http.values (addAll hs ∅) key = http.values hs key.
Proof.
  unfold addAll.
  apply (map_fold_weak_ind
           (fun (r : http.Header) (m : http.Header) =>
              canonicalKeys m -> http.values r key = http.values m key)).
  - reflexivity.
  - intros i x m r Hnone IH Hcan.
    assert (Hm : canonicalKeys m).
    { intros k vs Hk. apply (Hcan k vs).
      rewrite lookup_insert_ne; [exact Hk|]. intros ->. congruence. }
    rewrite values_Add_all.
    rewrite (Hcan i x) by apply lookup_insert_eq.
    unfold http.values at 3.
    destruct (decide (key = i)) as [->|Hne].
    + rewrite lookup_insert_eq. rewrite (IH Hm). unfold http.values.
      rewrite Hnone. reflexivity.
    + rewrite lookup_insert_ne by congruence. apply IH. exact Hm.
Qed.

Lemma HTTPRequest_headers (baseURL : option url.URL) (request responder : jsonRequest)
      (req : http.Request) :
  HTTPRequest baseURL request = Returns (responder, inr req) ->
  http.Header_ req
  = http.Set_ "Accept" "application/json"
      (http.Set_ "Content-Type" "application/json" (addAll (headers request) ∅)).
Proof.
  unfold HTTPRequest.
  destruct (ResolveReferencePtr baseURL _) as [u|]; [|discriminate].
  destruct (match body (setURL u request) with
            | Some v => Encode v | None => inr "" end) as [|buffer]; [discriminate|].
  unfold http.NewRequest.
  destruct (negb (http.validMethod _)); [discriminate|].
  destruct (url.Parse (url.String_ u)); [discriminate|].
  intros H. inversion H. reflexivity.
Qed.

(** C8. For every sequence of [Header] calls on a builder, the request
    [HTTPRequest] returns carries the accumulated headers, every value of a
    repeated name in the order of the calls, except that [Content-Type] and
    [Accept] hold exactly [application/json], whatever the caller set under
    these names. *)
Theorem C8_headers_then_json_content_type
        (calls : list (string * string)) (method path : string)
        (baseURL : option url.URL) (request responder : jsonRequest)
        (req : http.Request) :
  headers request = headers (headerCalls calls (JSONRequest method path)) ->
  HTTPRequest baseURL request = Returns (responder, inr req) ->
  http.values (http.Header_ req) "Content-Type" = ["application/json"]
  /\ http.values (http.Header_ req) "Accept" = ["application/json"]
  /\ http.Get (http.Header_ req) "Content-Type" = "application/json"
  /\ http.Get (http.Header_ req) "Accept" = "application/json"
  /\ forall key : string,
       key <> "Content-Type" -> key <> "Accept" ->
       http.values (http.Header_ req) key
       = (filter (fun nv => http.CanonicalMIMEHeaderKey (fst nv) = key) calls).*2.
Proof.
  intros Hheaders Hreq.
  rewrite (HTTPRequest_headers _ _ _ _ Hreq).
  assert (Hct : http.values
                  (http.Set_ "Accept" "application/json"
                     (http.Set_ "Content-Type" "application/json"
                        (addAll (headers request) ∅))) "Content-Type"
                = ["application/json"]).
  { rewrite !values_Set. reflexivity. }
  assert (Hacc : http.values
                   (http.Set_ "Accept" "application/json"
                      (http.Set_ "Content-Type" "application/json"
                         (addAll (headers request) ∅))) "Accept"
                 = ["application/json"]).
  { rewrite values_Set. reflexivity. }
  split; [exact Hct|]. split; [exact Hacc|].
  split; [unfold http.Get;
          change (http.CanonicalMIMEHeaderKey "Content-Type") with "Content-Type";
          rewrite Hct; reflexivity|].
  split; [unfold http.Get;
          change (http.CanonicalMIMEHeaderKey "Accept") with "Accept";
          rewrite Hacc; reflexivity|].
  intros key Hk1 Hk2. rewrite !values_Set.
  change (http.CanonicalMIMEHeaderKey "Content-Type") with "Content-Type".
  change (http.CanonicalMIMEHeaderKey "Accept") with "Accept".
  rewrite !decide_False by assumption.
  rewrite values_addAll.
  - rewrite Hheaders, values_headerCalls. reflexivity.
  - rewrite Hheaders. apply canonicalKeys_headerCalls.
    intros k vs Hk. cbn in Hk. rewrite lookup_empty in Hk. discriminate.
Qed.

Lemma C8_headers_then_json_content_type_witness :
  let request :=
    Header "accept" "text/html"
      (Header "x-foo-status" "baz"
         (Header "Content-Type" "text/plain"
            (Header "X-Foo-Status" "bar" (JSONRequest "GET" "")))) in
  exists responder req,
    HTTPRequest tests.requestURL request = Returns (responder, inr req)
    /\ http.values (http.Header_ req) "Content-Type" = ["application/json"]
    /\ http.values (http.Header_ req) "Accept" = ["application/json"]
    /\ http.values (http.Header_ req) "X-Foo-Status" = ["bar"; "baz"].
Proof.
  intros request.
  assert (Hreq : exists responder req,
             HTTPRequest tests.requestURL request = Returns (responder, inr req)).
  { eexists _, _. vm_compute. reflexivity. }
  destruct Hreq as (responder & req & Hreq).
  destruct (C8_headers_then_json_content_type
              [("X-Foo-Status", "bar"); ("Content-Type", "text/plain");
               ("x-foo-status", "baz"); ("accept", "text/html")]
              "GET" "" tests.requestURL request responder req eq_refl Hreq)
    as (Hct & Hacc & _ & _ & Hother).
  exists responder, req. split; [exact Hreq|]. split; [exact Hct|].
  split; [exact Hacc|].
  rewrite (Hother "X-Foo-Status") by discriminate. reflexivity.
Defined.

(** ** The throttled client *)

Lemma held_insert (cs : list caller) (i : nat) (c c' : caller) :
  cs !! i = Some c ->
  (held (<[i := c']> cs) + (if holds c then 1 else 0)
   = held cs + (if holds c' then 1 else 0))%nat.
Proof.
  revert i. induction cs as [|x r IH]; intros i Hi; [discriminate|].
  destruct i as [|i].
  - cbn in Hi. injection Hi as ->. cbn [held]. cbn. lia.
  - cbn in Hi. cbn [held]. change (<[S i := c']> (x :: r)) with (x :: <[i := c']> r).
    cbn [held]. specialize (IH i Hi). lia.
Qed.

Lemma inFlight_le_held (σ : clientState) : inFlight σ <= Z.of_nat (held (callers σ)).
Proof.
  unfold inFlight. induction (callers σ) as [|c r IH]; [cbn; lia|].
  rewrite filter_cons. cbn [held].
  unfold inCall, holds in *. destruct (at_ c); cbn.
  - rewrite decide_False by discriminate. lia.
  - rewrite decide_True by reflexivity. cbn [length]. lia.
  - rewrite decide_False by discriminate. lia.
  - rewrite decide_False by discriminate. lia.
Qed.

Lemma held_positive (cs : list caller) :
  (0 < held cs)%nat -> exists j c, cs !! j = Some c /\ holds c = true.
Proof.
  induction cs as [|x r IH]; cbn [held]; [lia|].
  destruct (holds x) eqn:Hx.
  - intros _. exists 0%nat, x. split; [reflexivity|exact Hx].
  - intros H. destruct IH as (j & c & Hj & Hc); [lia|].
    exists (S j), c. split; [exact Hj|exact Hc].
Qed.


Lemma throttled_start (n : Z) (m : nat) : 0 <= n -> throttled n (start n m).
Proof.
  intros Hn. unfold throttled, start. cbn [sem callers cap len].
  assert (Hheld : held (replicate m (mkCaller AtLock 0 0)) = 0%nat).
  { induction m as [|m IH]; [reflexivity|]. cbn. exact IH. }
  rewrite Hheld. repeat split; [lia|].
  apply Forall_replicate. split; reflexivity.
Qed.

Lemma throttled_step (n : Z) (i : nat) (o : exit) (σ σ' : clientState) :
  throttled n σ -> stepAt i o σ = Some σ' -> throttled n σ'.
Proof.
  intros (Hcap & Hlen & Hle & Hall) Hstep. unfold stepAt in Hstep.
  destruct (callers σ !! i) as [c|] eqn:Hi; [|discriminate].
  pose proof (held_insert (callers σ) i c) as Hins.
  pose proof (Forall_lookup_1 _ _ _ _ Hall Hi) as Hc.
  unfold counted in Hc.
  destruct (at_ c) eqn:Hat.
  - unfold Lock in Hstep. destruct (Z.ltb_spec (len (sem σ)) (cap (sem σ))) as [Hlt|];
      [|discriminate].
    injection Hstep as <-. unfold throttled. cbn [sem callers cap len].
    specialize (Hins (mkCaller InCall (S (acquired c)) (released c)) Hi).
    unfold holds in Hins. rewrite Hat in Hins. cbn in Hins.
    repeat split; [assumption|lia|lia|].
    apply Forall_insert; [exact Hall|].
    unfold counted. cbn. destruct Hc as [-> ->]. split; reflexivity.
  - injection Hstep as <-. unfold throttled. cbn [sem callers].
    specialize (Hins (mkCaller (AtUnlock o) (acquired c) (released c)) Hi).
    unfold holds in Hins. rewrite Hat in Hins. cbn in Hins.
    repeat split; [assumption|lia|lia|].
    apply Forall_insert; [exact Hall|]. unfold counted. cbn. exact Hc.
  - unfold Unlock in Hstep. destruct (Z.ltb_spec 0 (len (sem σ))) as [Hlt|];
      [|discriminate].
    injection Hstep as <-. unfold throttled. cbn [sem callers cap len].
    specialize (Hins (mkCaller (Left o0) (acquired c) (S (released c))) Hi).
    unfold holds in Hins. rewrite Hat in Hins. cbn in Hins.
    repeat split; [assumption|lia|lia|].
    apply Forall_insert; [exact Hall|].
    unfold counted. cbn. destruct Hc as [-> ->]. split; reflexivity.
  - discriminate.
Qed.

Lemma throttled_run (n : Z) (schedule : list (nat * exit)) (σ : clientState) :
  throttled n σ -> throttled n (run schedule σ).
Proof.
  revert σ. induction schedule as [|[i o] rest IH]; intros σ H; [exact H|].
  cbn [run]. apply IH.
  destruct (stepAt i o σ) as [σ'|] eqn:Hstep; [|exact H].
  cbn. exact (throttled_step n i o σ σ' H Hstep).
Qed.




(** * Further properties of the code *)

(** ** Response resolution below 400, and what decoding returns *)

Lemma OnHTTPResponse_success (responder : jsonRequest) (res : http.Response) :
  http.StatusCode res < 400 ->
  OnHTTPResponse responder res
  = match success responder with
    | Some target =>
        let '(dec, e, v) := Decode (json.NewDecoder (http.ResponseBody res)) target in
        mkResponded e dec (Some v)
    | None => mkResponded None (json.NewDecoder (http.ResponseBody res)) None
    end.
Proof.
  intros Hcode. unfold OnHTTPResponse.
  destruct (Z.ltb_spec (http.StatusCode res) http.StatusBadRequest) as [_|Hge];
    [reflexivity|].
  unfold http.StatusBadRequest in Hge. lia.
Qed.

(** X1. For a status below 400 the result of [OnHTTPResponse] depends on the
    success target and the body alone: status overrides, the failure target,
    the method and the URL play no part.  Without a success target the
    result is nil and nothing is read, even when an error is registered for
    the status code. *)
Theorem X1_below_400_only_success_target
        (responder responder' : jsonRequest) (res res' : http.Response) :
  http.StatusCode res < 400 ->
  http.StatusCode res' < 400 ->
  success responder = success responder' ->
  http.ResponseBody res = http.ResponseBody res' ->
  OnHTTPResponse responder res = OnHTTPResponse responder' res'
  /\ (success responder = None ->
      returned (OnHTTPResponse responder res) = None
      /\ decoded (OnHTTPResponse responder res) = None
      /\ decoder (OnHTTPResponse responder res)
         = json.NewDecoder (http.ResponseBody res)).
Proof.
  intros Hc Hc' Hs Hb.
  rewrite (OnHTTPResponse_success responder res Hc).
  rewrite (OnHTTPResponse_success responder' res' Hc').
  rewrite <- Hs, <- Hb. split; [reflexivity|].
  intros ->. repeat split.
Qed.

Lemma X1_below_400_only_success_target_witness :
  let responder :=
    StatusError 204 (Some (errorString "no content"))
      (Failure (Some (mkDyn tests.errorResponse "")) (JSONRequest "GET" "x")) in
  OnHTTPResponse responder (tests.newResponse 204 "{[")
  = OnHTTPResponse (JSONRequest "PUT" "y") (tests.newResponse 200 "{[")
  /\ returned (OnHTTPResponse responder (tests.newResponse 204 "{[")) = None.
Proof.
  intros responder.
  destruct (X1_below_400_only_success_target
              responder (JSONRequest "PUT" "y") (tests.newResponse 204 "{[")
              (tests.newResponse 200 "{[")) as [Heq H].
  - simpl. lia.
  - simpl. lia.
  - reflexivity.
  - reflexivity.
  - split; [exact Heq|]. destruct (H eq_refl) as [Hret _]. exact Hret.
Defined.

(** Where [OnHTTPResponse] decodes, an error of the scanner is the result,
    the target is not written and the decoder keeps the error. *)
Lemma OnHTTPResponse_scan_error
      (responder : jsonRequest) (res : http.Response) (target : dyn) (e : error) :
  decodesInto responder res target ->
  json.readValue (http.ResponseBody res) = inl e ->
  OnHTTPResponse responder res
  = mkResponded (Some e) (json.mkDecoder (http.ResponseBody res) (Some e)) (Some target).
Proof.
  intros [[Hc Hs] | (Hc & Hlook & Hf)] Hscan.
  - rewrite (OnHTTPResponse_success responder res Hc), Hs.
    rewrite (Decode_scan_error _ target e Hscan). reflexivity.
  - rewrite (OnHTTPResponse_failure responder res target target _ _
               Hc Hlook Hf (Decode_scan_error _ target e Hscan)).
    reflexivity.
Qed.

(** X2. Whenever [OnHTTPResponse] decodes (a success target below 400; a
    failure target from 400 on, no status override matching), an error of
    the JSON scanner, be it a syntax error or an end of input, is returned
    as it is, also for a successful status; the target is left unwritten
    and the unread body is kept. *)
Theorem X2_scanner_error_returned
        (responder : jsonRequest) (res : http.Response) (target : dyn) (e : error) :
  decodesInto responder res target ->
  json.readValue (http.ResponseBody res) = inl e ->
  returned (OnHTTPResponse responder res) = Some e
  /\ decoded (OnHTTPResponse responder res) = Some target
  /\ json.buf (decoder (OnHTTPResponse responder res)) = http.ResponseBody res
  /\ json.err (decoder (OnHTTPResponse responder res)) = Some e.
Proof.
  intros Hdec Hscan.
  rewrite (OnHTTPResponse_scan_error responder res target e Hdec Hscan).
  repeat split.
Qed.

Lemma X2_scanner_error_returned_witness :
  returned (OnHTTPResponse
              (Response (Some (mkDyn tests.stringValue "")) (JSONRequest "" ""))
              (tests.newResponse 200 "{["))
  = Some (SyntaxError
            "invalid character '[' looking for beginning of object key string" 2).
Proof.
  apply (X2_scanner_error_returned
           (Response (Some (mkDyn tests.stringValue "")) (JSONRequest "" ""))
           (tests.newResponse 200 "{[") (mkDyn tests.stringValue "")).
  - left. split; [simpl; lia|reflexivity].
  - reflexivity.
Defined.

Lemma readLoop_blank (buf all : string) (n : nat) :
  json.nonSpace buf = false -> json.nonSpace all = false ->
  json.readLoop json.reset n all buf = inl ioEOF.
Proof.
  revert n. induction buf as [|c r IH]; intros n Hb Ha.
  - cbn [json.readLoop].
    change (snd (json.doStep json.reset " ")) with json.scanSkipSpace.
    cbv iota. rewrite Ha. reflexivity.
  - cbn [json.nonSpace] in Hb. apply orb_false_iff in Hb as [Hc Hr].
    apply negb_false_iff in Hc.
    cbn [json.readLoop].
    assert (Hstep : json.doStep json.reset c = (json.reset, json.scanSkipSpace)).
    { unfold json.doStep, json.reset. cbn [json.step]. unfold json.doBeginValue.
      rewrite Hc. reflexivity. }
    rewrite Hstep. apply IH; assumption.
Qed.

(** X3. Whenever [OnHTTPResponse] decodes, a body that is empty or holds
    white space only yields [io.EOF]: a reply without content to a request
    with a success target is reported as an error, and an error reply
    without content loses the default error to [io.EOF]. *)
Theorem X3_blank_body_is_EOF
        (responder : jsonRequest) (res : http.Response) (target : dyn) :
  decodesInto responder res target ->
  json.nonSpace (http.ResponseBody res) = false ->
  returned (OnHTTPResponse responder res) = Some ioEOF
  /\ decoded (OnHTTPResponse responder res) = Some target.
Proof.
  intros Hdec Hblank.
  rewrite (OnHTTPResponse_scan_error responder res target ioEOF Hdec).
  - split; reflexivity.
  - unfold json.readValue. apply readLoop_blank; exact Hblank.
Qed.

Lemma X3_blank_body_is_EOF_witness :
  returned (OnHTTPResponse
              (Success (Some (mkDyn tests.plainResponse "")) (JSONRequest "DELETE" "x"))
              (tests.newResponse 204 ""))
  = Some ioEOF
  /\ returned (OnHTTPResponse
                 (Failure (Some (mkDyn tests.errorResponse "")) (JSONRequest "GET" "x"))
                 (tests.newResponse 502 " "))
     = Some ioEOF.
Proof.
  split.
  - apply (X3_blank_body_is_EOF
             (Success (Some (mkDyn tests.plainResponse "")) (JSONRequest "DELETE" "x"))
             (tests.newResponse 204 "") (mkDyn tests.plainResponse "")).
    + left. split; [simpl; lia|reflexivity].
    + reflexivity.
  - apply (X3_blank_body_is_EOF
             (Failure (Some (mkDyn tests.errorResponse "")) (JSONRequest "GET" "x"))
             (tests.newResponse 502 " ") (mkDyn tests.errorResponse "")).
    + right. split; [simpl; lia|]. split; reflexivity.
    + reflexivity.
Defined.

(** X4. Status errors are kept by code: a second registration for a code
    replaces the first, registrations for different codes do not depend on
    their order, and a registration does not change what is returned for a
    response with another status code. *)
Theorem X4_StatusError_by_code
        (request : jsonRequest) (c c' : Z) (e e' : option error) :
  StatusError c e' (StatusError c e request) = StatusError c e' request
  /\ (c <> c' ->
      StatusError c e (StatusError c' e' request)
      = StatusError c' e' (StatusError c e request))
  /\ (forall res : http.Response,
         http.StatusCode res <> c ->
         OnHTTPResponse (StatusError c e request) res = OnHTTPResponse request res).
Proof.
  split; [|split].
  - unfold StatusError. cbn. rewrite insert_insert_eq. reflexivity.
  - intros Hne. unfold StatusError. cbn. rewrite insert_insert_ne by exact Hne.
    reflexivity.
  - intros res Hne. unfold OnHTTPResponse.
    cbn [StatusError success failure statusErrors method URL].
    rewrite lookup_insert_ne by congruence. reflexivity.
Qed.

Lemma X4_StatusError_by_code_witness :
  let request := JSONRequest "GET" "x" in
  StatusError 404 (Some (errorString "gone"))
              (StatusError 500 None request)
  = StatusError 500 None (StatusError 404 (Some (errorString "gone")) request)
  /\ OnHTTPResponse (StatusError 404 (Some (errorString "gone")) request)
                    (tests.newResponse 500 "")
     = OnHTTPResponse request (tests.newResponse 500 "").
Proof.
  intros request.
  destruct (X4_StatusError_by_code request 404 500 (Some (errorString "gone")) None)
    as (_ & Hcomm & Hother).
  split.
  - apply Hcomm. lia.
  - apply Hother. simpl. lia.
Defined.

(** ** Request resolution: what [HTTPRequest] reads, keeps and returns *)

(** [HTTPRequest] changes the URL of the request and nothing else. *)
Lemma HTTPRequest_responder (baseURL : option url.URL) (request responder : jsonRequest)
      (result : error + http.Request) :
  HTTPRequest baseURL request = Returns (responder, result) ->
  exists u, responder = setURL u request.
Proof.
  unfold HTTPRequest.
  destruct (ResolveReferencePtr baseURL _) as [u|]; [|discriminate].
  intros H. exists u.
  destruct (match body (setURL u request) with
            | Some v => Encode v | None => inr "" end); [congruence|].
  destruct (http.NewRequest _ _ _); congruence.
Qed.

(** What [HTTPRequest] returns for two requests that agree on the method,
    the body, the headers and the path after its leading slashes. *)
Lemma HTTPRequest_trimmed (baseURL : option url.URL) (r r' : jsonRequest) :
  method r = method r' -> body r = body r' -> headers r = headers r' ->
  gostrings.TrimLeft (path r) "/" = gostrings.TrimLeft (path r') "/" ->
  match HTTPRequest baseURL r, HTTPRequest baseURL r' with
  | Returns (s, result), Returns (s', result') => result = result' /\ URL s = URL s'
  | Panics a, Panics b => a = b
  | _, _ => False
  end.
Proof.
  intros Hm Hb Hh Hp. unfold HTTPRequest. rewrite <- Hp.
  destruct (ResolveReferencePtr baseURL _) as [u|reason]; [|reflexivity].
  cbn [setURL body method headers]. rewrite <- Hb, <- Hm, <- Hh.
  destruct (match body r with Some v => Encode v | None => inr "" end) as [err|buffer].
  { split; reflexivity. }
  destruct (http.NewRequest (method r) (url.String_ u) buffer) as [err|req];
    split; reflexivity.
Qed.

(** X5. [HTTPRequest] leaves the method, path, body, targets, status errors
    and headers of the builder as they are and sets its URL only; resolving
    the returned responder again against the same base URL gives the same
    responder and the same request or error. *)
Theorem X5_HTTPRequest_again
        (baseURL : option url.URL) (request responder : jsonRequest)
        (result : error + http.Request) :
  HTTPRequest baseURL request = Returns (responder, result) ->
  HTTPRequest baseURL responder = Returns (responder, result)
  /\ method responder = method request
  /\ path responder = path request
  /\ body responder = body request
  /\ success responder = success request
  /\ failure responder = failure request
  /\ statusErrors responder = statusErrors request
  /\ headers responder = headers request.
Proof.
  intros H.
  destruct (HTTPRequest_responder _ _ _ _ H) as [u Hs].
  split; [|subst responder; repeat split].
  pose proof (HTTPRequest_trimmed baseURL request responder) as Hr.
  rewrite H in Hr.
  destruct (HTTPRequest baseURL responder) as [[s' result']|] eqn:H'.
  - destruct Hr as [Hres Hurl]; try (subst responder; reflexivity).
    destruct (HTTPRequest_responder _ _ _ _ H') as [u' Hs'].
    subst result' responder s'. cbn [setURL URL] in Hurl. injection Hurl as ->.
    reflexivity.
  - exfalso. apply Hr; subst responder; reflexivity.
Qed.

Lemma X5_HTTPRequest_again_witness :
  exists responder result,
    HTTPRequest tests.requestURL (Header "X-A" "b" (JSONRequest "PUT" "/some/path"))
    = Returns (responder, result)
    /\ HTTPRequest tests.requestURL responder = Returns (responder, result).
Proof.
  assert (H : exists responder result,
             HTTPRequest tests.requestURL (Header "X-A" "b" (JSONRequest "PUT" "/some/path"))
             = Returns (responder, result)).
  { eexists _, _. vm_compute. reflexivity. }
  destruct H as (responder & result & H).
  exists responder, result. split; [exact H|].
  exact (proj1 (X5_HTTPRequest_again _ _ _ _ H)).
Defined.

Lemma TrimLeft_slashes (k : nat) (p : string) :
  gostrings.TrimLeft (slashes k +:+ p) "/" = gostrings.TrimLeft p "/".
Proof. induction k as [|k IH]; [reflexivity|]. exact IH. Qed.

(** X6. Leading slashes of the path do not count: two requests that differ
    only in the number of slashes their paths begin with get the same
    resolved URL and the same [*http.Request] or error, or panic alike. *)
Theorem X6_leading_slashes_ignored
        (baseURL : option url.URL) (r r' : jsonRequest) (k : nat) :
  method r = method r' -> body r = body r' -> headers r = headers r' ->
  path r' = slashes k +:+ path r ->
  match HTTPRequest baseURL r, HTTPRequest baseURL r' with
  | Returns (s, result), Returns (s', result') => result = result' /\ URL s = URL s'
  | Panics a, Panics b => a = b
  | _, _ => False
  end.
Proof.
  intros Hm Hb Hh Hp. apply HTTPRequest_trimmed; try assumption.
  rewrite Hp, TrimLeft_slashes. reflexivity.
Qed.

Lemma X6_leading_slashes_ignored_witness :
  match HTTPRequest tests.requestURL (JSONRequest "GET" "some/path"),
        HTTPRequest tests.requestURL (JSONRequest "GET" "///some/path") with
  | Returns (s, result), Returns (s', result') => result = result' /\ URL s = URL s'
  | Panics a, Panics b => a = b
  | _, _ => False
  end.
Proof.
  apply (X6_leading_slashes_ignored tests.requestURL
           (JSONRequest "GET" "some/path") (JSONRequest "GET" "///some/path") 3);
    reflexivity.
Defined.

Lemma ResolveReference_absolute (b b' ref : url.URL) :
  url.Scheme ref <> "" ->
  url.ResolveReference b ref = url.ResolveReference b' ref
  /\ url.Scheme (url.ResolveReference b ref) = url.Scheme ref
  /\ url.Host (url.ResolveReference b ref) = url.Host ref
  /\ url.User (url.ResolveReference b ref) = url.User ref.
Proof.
  intros Hs. unfold url.ResolveReference, url.eqs.
  destruct (String.eqb_spec (url.Scheme ref) "") as [He|_]; [contradiction|].
  cbn [negb orb]. repeat split.
Qed.

(** X7. A path that is itself a URL with a scheme is not confined to the
    base URL: the request goes to the scheme, user and host of the path,
    and [HTTPRequest] returns the same for every base URL, the nil one
    included. *)
Theorem X7_absolute_path_ignores_base
        (baseURL baseURL' : option url.URL) (request : jsonRequest) (ref : url.URL) :
  url.Parse (gostrings.TrimLeft (path request) "/") = inr ref ->
  url.Scheme ref <> "" ->
  HTTPRequest baseURL request = HTTPRequest baseURL' request
  /\ exists result u,
       HTTPRequest baseURL request = Returns (setURL u request, result)
       /\ url.Scheme u = url.Scheme ref
       /\ url.Host u = url.Host ref
       /\ url.User u = url.User ref.
Proof.
  intros Hparse Hs.
  assert (Hres : forall b, ResolveReferencePtr b (Some ref)
                           = Returns (url.ResolveReference url.empty ref)).
  { intros [b|]; unfold ResolveReferencePtr.
    - f_equal. apply ResolveReference_absolute. exact Hs.
    - destruct (String.eqb_spec (url.Scheme ref) "") as [He|_]; [contradiction|].
      reflexivity. }
  split.
  - unfold HTTPRequest. rewrite Hparse, !Hres. reflexivity.
  - destruct (HTTPRequest_resolves baseURL request ref _ Hparse (Hres baseURL))
      as (result & H & _).
    exists result, (url.ResolveReference url.empty ref).
    split; [exact H|].
    destruct (ResolveReference_absolute url.empty url.empty ref Hs) as (_ & H1 & H2 & H3).
    repeat split; assumption.
Qed.

Lemma X7_absolute_path_ignores_base_witness :
  exists result u,
    HTTPRequest tests.requestURL (JSONRequest "GET" "/https://other.example/x")
    = Returns (setURL u (JSONRequest "GET" "/https://other.example/x"), result)
    /\ url.Scheme u = "https"
    /\ url.Host u = "other.example".
Proof.
  destruct (X7_absolute_path_ignores_base
              tests.requestURL None (JSONRequest "GET" "/https://other.example/x")
              (url.mkURL "https" "" None "other.example" "/x" false "" ""))
    as (_ & result & u & H & Hs & Hh & _).
  - reflexivity.
  - discriminate.
  - exists result, u. split; [exact H|]. split; [exact Hs|exact Hh].
Defined.

(** With the nil base URL, [HTTPRequest] panics exactly when the path is
    rejected by [url.Parse] or has no scheme. *)
Lemma HTTPRequest_nil_base (request : jsonRequest) :
  HTTPRequest None request = Panics nilDereference
  <-> ((exists e, url.Parse (gostrings.TrimLeft (path request) "/") = inl e)
       \/ (exists ref, url.Parse (gostrings.TrimLeft (path request) "/") = inr ref
                       /\ url.Scheme ref = "")).
Proof.
  unfold HTTPRequest.
  destruct (url.Parse (gostrings.TrimLeft (path request) "/")) as [e|ref].
  - split; [intros _; left; exists e; reflexivity|reflexivity].
  - unfold ResolveReferencePtr.
    destruct (String.eqb_spec (url.Scheme ref) "") as [He|Hne].
    + split; [intros _; right; exists ref; split; [reflexivity|exact He]|reflexivity].
    + split.
      * intros H.
        destruct (match body (setURL _ request) with
                  | Some v => Encode v | None => inr "" end); [discriminate|].
        destruct (http.NewRequest _ _ _); discriminate.
      * intros [[e He]|(ref' & Hr & Hs)]; [discriminate|].
        injection Hr as <-. contradiction.
Qed.

(** X8. Handed the nil base URL, [HTTPRequest] panics with a nil
    dereference exactly when the path, its leading slashes trimmed, is
    rejected by [url.Parse] or has no scheme; it never returns an error for
    the missing base. *)
Theorem X8_nil_base_URL (request : jsonRequest) :
  (HTTPRequest None request = Panics nilDereference
   <-> ((exists e, url.Parse (gostrings.TrimLeft (path request) "/") = inl e)
        \/ (exists ref, url.Parse (gostrings.TrimLeft (path request) "/") = inr ref
                        /\ url.Scheme ref = "")))
  /\ (forall reason, HTTPRequest None request = Panics reason -> reason = nilDereference).
Proof.
  split; [apply HTTPRequest_nil_base|].
  unfold HTTPRequest. intros reason.
  destruct (url.Parse _) as [e|ref]; unfold ResolveReferencePtr.
  - intros H. injection H as <-. reflexivity.
  - destruct (String.eqb (url.Scheme ref) "").
    + intros H. injection H as <-. reflexivity.
    + destruct (match body (setURL _ request) with
                | Some v => Encode v | None => inr "" end); [discriminate|].
      destruct (http.NewRequest _ _ _); discriminate.
Qed.

(** X9. The request [HTTPRequest] returns carries as body the JSON encoding
    of the body object followed by a newline, or nothing when no body object
    is set, and announces the length of exactly that text. *)
Theorem X9_request_body
        (baseURL : option url.URL) (request responder : jsonRequest)
        (req : http.Request) :
  HTTPRequest baseURL request = Returns (responder, inr req) ->
  http.ContentLength req = Z.of_nat (String.length (http.Body req))
  /\ match body request with
     | None => http.Body req = ""
     | Some v => exists text,
         jsonMarshal (dynType v) (dynValue v) = inr text
         /\ http.Body req = text +:+ String "010" ""
     end.
Proof.
  unfold HTTPRequest.
  destruct (ResolveReferencePtr baseURL _) as [u|]; [|discriminate].
  cbn [setURL body method headers].
  destruct (body request) as [v|].
  - unfold Encode. destruct (jsonMarshal (dynType v) (dynValue v)) as [e|text];
      [discriminate|].
    unfold http.NewRequest.
    destruct (negb (http.validMethod _)); [discriminate|].
    destruct (url.Parse (url.String_ u)); [discriminate|].
    intros H. injection H as _ <-. cbn.
    split; [reflexivity|]. exists text. split; reflexivity.
  - unfold http.NewRequest.
    destruct (negb (http.validMethod _)); [discriminate|].
    destruct (url.Parse (url.String_ u)); [discriminate|].
    intros H. injection H as _ <-. cbn. split; reflexivity.
Qed.

Lemma X9_request_body_witness :
  exists responder req,
    HTTPRequest tests.requestURL
                (Body (Some (mkDyn tests.plainResponse "hi")) (JSONRequest "POST" "x"))
    = Returns (responder, inr req)
    /\ http.ContentLength req = 17.
Proof.
  assert (H : exists responder req,
             HTTPRequest tests.requestURL
                         (Body (Some (mkDyn tests.plainResponse "hi"))
                               (JSONRequest "POST" "x"))
             = Returns (responder, inr req)).
  { eexists _, _. vm_compute. reflexivity. }
  destruct H as (responder & req & H).
  exists responder, req. split; [exact H|].
  destruct (X9_request_body _ _ _ _ H) as [Hlen Hbody].
  cbn [Body body] in Hbody. destruct Hbody as (text & Ht & Hb).
  rewrite Hlen, Hb. cbn in Ht. injection Ht as <-. reflexivity.
Defined.

(** X10. When the body object cannot be encoded, [HTTPRequest] returns the
    error of the encoder as it is and no request, whatever the method; the
    URL of the builder has been set all the same. *)
Theorem X10_encoding_failure_first
        (baseURL : option url.URL) (request : jsonRequest) (ref u : url.URL)
        (v : dyn) (e : error) :
  url.Parse (gostrings.TrimLeft (path request) "/") = inr ref ->
  ResolveReferencePtr baseURL (Some ref) = Returns u ->
  body request = Some v ->
  jsonMarshal (dynType v) (dynValue v) = inl e ->
  HTTPRequest baseURL request = Returns (setURL u request, inl e).
Proof.
  intros Hparse Hres Hb Hm. unfold HTTPRequest. rewrite Hparse, Hres.
  cbn [setURL body]. rewrite Hb. unfold Encode. rewrite Hm. reflexivity.
Qed.

Lemma X10_encoding_failure_first_witness :
  let request := Body (Some (mkDyn chanValue tt)) (JSONRequest "not a method" "x") in
  HTTPRequest tests.requestURL request
  = Returns (setURL (url.mkURL "http" "" None "example.com" "/doc/x" false "" "") request,
             inl (customError "*json.UnsupportedTypeError"
                              "json: unsupported type: chan int")).
Proof.
  intros request.
  apply (X10_encoding_failure_first tests.requestURL request
           (url.mkURL "" "" None "" "x" false "" "") _ (mkDyn chanValue tt));
    reflexivity.
Defined.

(** ** The headers of the builder *)




(** ** The connection pool *)

(** X12. [NewConnectionPool] never panics, for no pool size, and the pool
    it returns admits at least one request at a time; the transport keeps as
    many idle connections per host as the semaphore has permits, and skips
    the verification of certificates exactly when the configuration says
    so. *)
Theorem X12_pool_configuration (config : Config) :
  exists p : pool,
    NewConnectionPool config = Returns p
    /\ 1 <= cap (throttle (poolClient p))
    /\ MaxIdleConnsPerHost (netHTTPClient (poolClient p)) = cap (throttle (poolClient p))
    /\ InsecureSkipVerify (netHTTPClient (poolClient p)) = SkipSSLValidation config.
Proof.
  unfold NewConnectionPool, newThrottledHTTPClient, makeSemaphore, DefaultPoolSize.
  destruct (Z.leb_spec (PoolSize config) 0) as [Hle|Hgt].
  - eexists. split; [reflexivity|]. cbn. repeat split. lia.
  - destruct (Z.ltb_spec (PoolSize config) 0) as [Hneg|_]; [lia|].
    eexists. split; [reflexivity|]. cbn. repeat split. lia.
Qed.

(** ** The throttled client: stuck, done, full *)

Lemma run_app (a b : list (nat * exit)) (σ : clientState) :
  run (a ++ b) σ = run b (run a σ).
Proof.
  revert σ. induction a as [|[i o] a IH]; intros σ; [reflexivity|].
  cbn [app run]. apply IH.
Qed.

Lemma stepAt_zero_capacity (m i : nat) (o : exit) :
  stepAt i o (start 0 m) = None.
Proof.
  unfold stepAt, start. cbn [callers sem].
  destruct (replicate m (mkCaller AtLock 0 0) !! i) as [c|] eqn:Hi; [|reflexivity].
  apply lookup_replicate in Hi as [-> _]. reflexivity.
Qed.

(** X13. A throttled client made with [maxRequests] 0 never lets a call
    through: under every schedule every caller stays parked at [Lock] and no
    call of the wrapped client is ever in flight.  A negative [maxRequests]
    panics when the client is made. *)
Theorem X13_zero_capacity_admits_nobody
        (m : nat) (schedule : list (nat * exit)) (client : Transport) :
  run schedule (start 0 m) = start 0 m
  /\ inFlight (run schedule (start 0 m)) = 0
  /\ (exists c, newThrottledHTTPClient client 0 = Returns c
                /\ throttle c = sem (start 0 m))
  /\ (forall n, n < 0 ->
                newThrottledHTTPClient client n = Panics "makechan: size out of range").
Proof.
  assert (Hrun : run schedule (start 0 m) = start 0 m).
  { induction schedule as [|[i o] rest IH]; [reflexivity|].
    cbn [run]. rewrite stepAt_zero_capacity. exact IH. }
  split; [exact Hrun|]. split.
  - rewrite Hrun.
    destruct (throttled_start 0 m) as (_ & Hlen & _); [lia|].
    pose proof (inFlight_le_held (start 0 m)) as Hle.
    assert (0 <= inFlight (start 0 m)) by (unfold inFlight; lia).
    cbn [start sem len] in Hlen. lia.
  - split.
    + eexists. split; reflexivity.
    + intros n Hn. unfold newThrottledHTTPClient, makeSemaphore.
      destruct (Z.ltb_spec n 0) as [_|H]; [reflexivity|lia].
Qed.

Lemma X13_zero_capacity_admits_nobody_witness :
  inFlight (run [(0, Returned); (1, Returned); (0, Panicked)]%nat (start 0 2)) = 0
  /\ newThrottledHTTPClient (mkTransport 8 false) (-1)
     = Panics "makechan: size out of range".
Proof.
  destruct (X13_zero_capacity_admits_nobody
              2 [(0, Returned); (1, Returned); (0, Panicked)]%nat (mkTransport 8 false))
    as (_ & Hflight & _ & Hneg).
  split; [exact Hflight|]. apply Hneg. lia.
Defined.


Lemma pending_insert (cs : list caller) (i : nat) (c c' : caller) :
  cs !! i = Some c ->
  (pending (<[i := c']> cs) + stepsLeft c = pending cs + stepsLeft c')%nat.
Proof.
  revert i. induction cs as [|x r IH]; intros i Hi; [discriminate|].
  destruct i as [|i].
  - cbn in Hi. injection Hi as ->. cbn [pending]. cbn. lia.
  - cbn in Hi. change (<[S i := c']> (x :: r)) with (x :: <[i := c']> r).
    cbn [pending]. specialize (IH i Hi). lia.
Qed.

Lemma stepAt_pending (i : nat) (o : exit) (σ σ' : clientState) :
  stepAt i o σ = Some σ' ->
  (pending (callers σ') + 1 = pending (callers σ))%nat.
Proof.
  unfold stepAt. destruct (callers σ !! i) as [c|] eqn:Hi; [|discriminate].
  pose proof (pending_insert (callers σ) i c) as Hins.
  unfold stepsLeft in Hins.
  destruct (at_ c) eqn:Hat.
  - destruct (Lock (sem σ)); [|discriminate]. intros H. injection H as <-.
    cbn [callers]. specialize (Hins (mkCaller InCall (S (acquired c)) (released c)) Hi).
    cbn in Hins. lia.
  - intros H. injection H as <-. cbn [callers].
    specialize (Hins (mkCaller (AtUnlock o) (acquired c) (released c)) Hi).
    cbn in Hins. lia.
  - destruct (Unlock (sem σ)); [|discriminate]. intros H. injection H as <-.
    cbn [callers]. specialize (Hins (mkCaller (Left o0) (acquired c) (S (released c))) Hi).
    cbn in Hins. lia.
  - discriminate.
Qed.

Lemma pending_waiting (cs : list caller) :
  (0 < pending cs)%nat -> held cs = 0%nat ->
  exists i c, cs !! i = Some c /\ at_ c = AtLock.
Proof.
  induction cs as [|x r IH]; cbn [pending held]; [lia|].
  unfold stepsLeft, holds. destruct (at_ x) eqn:Hx.
  - intros _ _. exists 0%nat, x. split; [reflexivity|exact Hx].
  - lia.
  - lia.
  - intros Hp Hh. destruct IH as (i & c & Hi & Hc); [lia|lia|].
    exists (S i), c. split; [exact Hi|exact Hc].
Qed.

(** While a caller has not left, some caller can step. *)
Lemma throttled_progress (n : Z) (σ : clientState) :
  1 <= n -> throttled n σ -> (0 < pending (callers σ))%nat ->
  exists i o σ', stepAt i o σ = Some σ'.
Proof.
  intros Hn (Hcap & Hlen & Hle & Hall) Hp.
  destruct (held (callers σ)) as [|h] eqn:Hheld.
  - destruct (pending_waiting _ Hp Hheld) as (i & c & Hi & Hc).
    exists i, Returned. unfold stepAt, Lock. rewrite Hi, Hc.
    destruct (Z.ltb_spec (len (sem σ)) (cap (sem σ))) as [_|H]; [|lia].
    eexists. reflexivity.
  - destruct (held_positive (callers σ)) as (j & c & Hj & Hc); [lia|].
    exists j, Returned. unfold stepAt, Unlock. rewrite Hj.
    unfold holds in Hc. destruct (at_ c); try discriminate.
    + eexists. reflexivity.
    + destruct (Z.ltb_spec 0 (len (sem σ))) as [_|H]; [|lia].
      eexists. reflexivity.
Qed.

Lemma throttled_completes (n : Z) (k : nat) (σ : clientState) :
  1 <= n -> throttled n σ -> pending (callers σ) = k ->
  exists rest, pending (callers (run rest σ)) = 0%nat.
Proof.
  intros Hn. revert σ. induction k as [|k IH]; intros σ Hinv Hp.
  - exists []. exact Hp.
  - destruct (throttled_progress n σ Hn Hinv) as (i & o & σ' & Hstep); [lia|].
    pose proof (stepAt_pending i o σ σ' Hstep) as Hdec.
    destruct (IH σ' (throttled_step n i o σ σ' Hinv Hstep)) as [rest Hrest]; [lia|].
    exists ((i, o) :: rest). cbn [run]. rewrite Hstep. exact Hrest.
Qed.

Lemma pending_zero (cs : list caller) :
  pending cs = 0%nat ->
  held cs = 0%nat /\ Forall (fun c => exists o, at_ c = Left o) cs.
Proof.
  induction cs as [|x r IH]; cbn [pending held]; [intros _; split; [reflexivity|constructor]|].
  unfold stepsLeft, holds. destruct (at_ x) eqn:Hx; try lia.
  intros H. destruct IH as [Hh Hall]; [lia|]. split; [lia|].
  constructor; [exists o; exact Hx|exact Hall].
Qed.

Lemma run_length (schedule : list (nat * exit)) (σ : clientState) :
  length (callers (run schedule σ)) = length (callers σ).
Proof.
  revert σ. induction schedule as [|[i o] rest IH]; intros σ; [reflexivity|].
  cbn [run]. rewrite IH.
  destruct (stepAt i o σ) as [σ'|] eqn:Hstep; [|reflexivity]. cbn.
  unfold stepAt in Hstep. destruct (callers σ !! i) as [c|]; [|discriminate].
  destruct (at_ c).
  - destruct (Lock (sem σ)); [|discriminate]. injection Hstep as <-.
    cbn [callers]. apply length_insert.
  - injection Hstep as <-. cbn [callers]. apply length_insert.
  - destruct (Unlock (sem σ)); [|discriminate]. injection Hstep as <-.
    cbn [callers]. apply length_insert.
  - discriminate.
Qed.

(** X14. With a pool size of at least 1 the throttled client cannot get
    stuck: from every state the callers can reach, some schedule lets every
    caller leave [Do], each having acquired and released exactly one permit,
    and then the semaphore is empty again and no call is in flight. *)
Theorem X14_every_caller_can_leave
        (n : Z) (m : nat) (schedule : list (nat * exit)) :
  1 <= n ->
  exists rest,
    let σ := run (schedule ++ rest) (start n m) in
    length (callers σ) = m
    /\ Forall (fun c => (exists o, at_ c = Left o)
                        /\ acquired c = 1%nat /\ released c = 1%nat) (callers σ)
    /\ len (sem σ) = 0
    /\ inFlight σ = 0.
Proof.
  intros Hn.
  assert (Hinv : throttled n (run schedule (start n m))).
  { apply throttled_run, throttled_start. lia. }
  destruct (throttled_completes n _ _ Hn Hinv eq_refl) as [rest Hrest].
  exists rest. rewrite run_app. cbv zeta.
  set (σ := run rest (run schedule (start n m))) in *.
  assert (Hinv' : throttled n σ) by (apply throttled_run; exact Hinv).
  destruct Hinv' as (Hcap & Hlen & Hle & Hall).
  destruct (pending_zero _ Hrest) as [Hheld Hleft].
  split.
  { unfold σ. rewrite !run_length. unfold start. cbn [callers].
    apply length_replicate. }
  split.
  { apply Forall_forall. intros c Hc.
    pose proof (proj1 (Forall_forall _ _) Hleft c Hc) as [o Ho].
    pose proof (proj1 (Forall_forall _ _) Hall c Hc) as Hcount.
    unfold counted in Hcount. rewrite Ho in Hcount.
    split; [exists o; exact Ho|exact Hcount]. }
  split; [lia|].
  pose proof (inFlight_le_held σ) as Hle'.
  assert (0 <= inFlight σ) by (unfold inFlight; lia). lia.
Qed.

Lemma X14_every_caller_can_leave_witness :
  exists rest,
    let σ := run ([(0, Returned); (1, Returned); (2, Returned)]%nat ++ rest)
                 (start 1 3) in
    length (callers σ) = 3%nat
    /\ Forall (fun c => (exists o, at_ c = Left o)
                        /\ acquired c = 1%nat /\ released c = 1%nat) (callers σ)
    /\ len (sem σ) = 0
    /\ inFlight σ = 0.
Proof.
  apply (X14_every_caller_can_leave 1 3 [(0, Returned); (1, Returned); (2, Returned)]%nat).
  lia.
Defined.

Lemma run_admit (n : Z) (m k : nat) :
  Z.of_nat k <= n -> (k <= m)%nat ->
  run (admitFirst k) (start n m)
  = mkClientState (mkSemaphore n (Z.of_nat k))
      (replicate k (mkCaller InCall 1 0) ++ replicate (m - k) (mkCaller AtLock 0 0)).
Proof.
  induction k as [|k IH]; intros Hn Hm.
  - cbn. rewrite Nat.sub_0_r. reflexivity.
  - unfold admitFirst. rewrite seq_S, map_app. fold (admitFirst k). rewrite run_app.
    rewrite IH by lia. cbn [map run Nat.add].
    assert (Hsplit : (m - k = S (m - S k))%nat) by lia.
    rewrite Hsplit. cbn [replicate].
    assert (Hlen : length (replicate k (mkCaller InCall 1 0)) = k)
      by apply length_replicate.
    unfold stepAt. cbn [callers sem].
    rewrite (list_lookup_middle _ _ _ k (eq_sym Hlen)). cbn [at_].
    unfold Lock. cbn [len cap].
    destruct (Z.ltb_spec (Z.of_nat k) n) as [_|H]; [|lia].
    cbn [default from_option acquired released]. unfold id.
    f_equal.
    + f_equal. lia.
    + rewrite insert_app_r_alt by (rewrite Hlen; apply le_n).
      rewrite Hlen, Nat.sub_diag. cbn [insert list_insert].
      change (replicate (S k) (mkCaller InCall 1 0))
        with (mkCaller InCall 1 0 :: replicate k (mkCaller InCall 1 0)).
      rewrite replicate_cons_app, <- app_assoc. reflexivity.
Qed.

(** X15. The bound of the throttled client is reached, not only respected:
    with at least [k] callers and a pool size of at least [k], admitting the
    first [k] callers one after the other puts [k] calls of the wrapped
    client in flight at once. *)
Theorem X15_bound_is_reached (n : Z) (m k : nat) :
  Z.of_nat k <= n -> (k <= m)%nat ->
  inFlight (run (admitFirst k) (start n m)) = Z.of_nat k
  /\ len (sem (run (admitFirst k) (start n m))) = Z.of_nat k.
Proof.
  intros Hn Hm. rewrite (run_admit n m k Hn Hm). split; [|reflexivity].
  unfold inFlight. cbn [callers]. rewrite filter_app, length_app.
  assert (H1 : forall j, length (filter (fun c => inCall c = true)
                                  (replicate j (mkCaller InCall 1 0))) = j).
  { induction j as [|j IH]; [reflexivity|].
    cbn [replicate]. rewrite filter_cons.
    rewrite decide_True by reflexivity. cbn [length]. rewrite IH. reflexivity. }
  assert (H2 : forall j, length (filter (fun c => inCall c = true)
                                  (replicate j (mkCaller AtLock 0 0))) = 0%nat).
  { induction j as [|j IH]; [reflexivity|].
    cbn [replicate]. rewrite filter_cons.
    rewrite decide_False by discriminate. exact IH. }
  rewrite H1, H2. lia.
Qed.

Lemma X15_bound_is_reached_witness :
  inFlight (run (admitFirst 8) (start 8 20)) = 8
  /\ len (sem (run (admitFirst 8) (start 8 20))) = 8.
Proof.
  apply (X15_bound_is_reached 8 20 8); lia.
Defined.

(** ** The mock transport and the mock pool *)

(** X16. [RoundTrip] records the request it is given also when it returns
    the forced error, and keeps the last request only.  Without a forced
    error it answers with the configured status and body, an empty unclosed
    body when none was set, and answers a second request the same way. *)
Theorem X16_RoundTrip_records_request
        (req req' : http.Request) (fake : httpmock.Transport) :
  let first := httpmock.RoundTrip req fake in
  let second := httpmock.RoundTrip req' (fst first) in
  httpmock.request (fst first) = Some req
  /\ httpmock.request (fst second) = Some req'
  /\ snd second = snd first
  /\ httpmock.t (fst second) = httpmock.t fake
  /\ match httpmock.error_ fake with
     | Some err =>
         snd first = inl err
         /\ httpmock.response (fst first) = httpmock.response fake
     | None =>
         snd first = inr (httpmock.response (fst first))
         /\ httpmock.StatusCode (httpmock.response (fst first))
            = httpmock.StatusCode (httpmock.response fake)
         /\ httpmock.Body (httpmock.response (fst first))
            = Some (default (httpmock.newClosableStringReader "")
                            (httpmock.Body (httpmock.response fake)))
     end.
Proof.
  destruct fake as [r [status b] e t]. destruct e as [err|]; [|destruct b as [b|]];
    cbn; repeat split.
Qed.

(** X17. Before any request was made, the assertions on the method, the
    path, the content type and the accepted type stop the test with the
    message that no request was made; the assertions on the protocol, the
    host and the body do not check for it and panic with a nil
    dereference. *)
Theorem X17_assertions_without_request
        (fake : httpmock.Transport) (expected : string)
        (cb : json.Decoder -> httpmock.T -> httpmock.verdict) :
  httpmock.request fake = None ->
  let stopped :=
    httpmock.FailNow (httpmock.Errorf "No HTTP requests were made." (httpmock.t fake)) in
  httpmock.AssertRequestMethod expected fake = stopped
  /\ httpmock.AssertRequestPath expected fake = stopped
  /\ httpmock.AssertRequestContentType expected fake = stopped
  /\ httpmock.AssertRequestAccepts expected fake = stopped
  /\ httpmock.AssertRequestProtocolIsHTTP fake = httpmock.Crashes nilDereference
  /\ httpmock.AssertRequestHost expected fake = httpmock.Crashes nilDereference
  /\ httpmock.AssertRequestBodyJSON cb fake = httpmock.Crashes nilDereference.
Proof.
  intros Hnone.
  unfold httpmock.AssertRequestMethod, httpmock.AssertRequestPath,
    httpmock.AssertRequestContentType, httpmock.AssertRequestAccepts,
    httpmock.AssertRequestProtocolIsHTTP, httpmock.AssertRequestHost,
    httpmock.AssertRequestBodyJSON, httpmock.assertRequestMade.
  rewrite Hnone. repeat split.
Qed.

Lemma X17_assertions_without_request_witness :
  let fake :=
    httpmock.SetResponseBody "{}"
      (httpmock.SetResponseStatusCode 200
         (httpmock.NewTransport (httpmock.mkT false []))) in
  httpmock.AssertRequestPath "/doc/" fake
  = httpmock.FailNow (httpmock.mkT true ["No HTTP requests were made."])
  /\ httpmock.AssertRequestHost "example.com" fake = httpmock.Crashes nilDereference.
Proof.
  intros fake.
  destruct (X17_assertions_without_request fake "/doc/"
              (fun _ t => httpmock.Continues t) eq_refl)
    as (_ & Hpath & _).
  destruct (X17_assertions_without_request fake "example.com"
              (fun _ t => httpmock.Continues t) eq_refl)
    as (_ & _ & _ & _ & _ & Hhost & _).
  split; [exact Hpath|exact Hhost].
Defined.

(** An assertion that compares returns, and has failed the test exactly
    when the strings differ. *)
Lemma expect_failed (actual expected msg : string) (t : httpmock.T) :
  httpmock.failed t = false ->
  exists t', httpmock.expect actual expected msg t = httpmock.Continues t'
             /\ (httpmock.failed t' = true <-> actual <> expected)
             /\ (actual = expected -> t' = t).
Proof.
  intros Hf. unfold httpmock.expect.
  destruct (String.eqb_spec actual expected) as [->|Hne]; cbn [negb].
  - exists t. split; [reflexivity|]. split; [|reflexivity].
    rewrite Hf. split; [discriminate|congruence].
  - eexists. split; [reflexivity|]. split; [|contradiction]. cbn. split; auto.
Qed.

(** X18. After a request was recorded, the assertions on the method, path,
    host, content type and accepted type return, and the test has failed
    exactly when the recorded value and the expected one differ as strings:
    [AssertRequestAccepts] compares for equality, it does not look for the
    type inside the header.  A passing assertion logs nothing. *)
Theorem X18_assertions_compare_exactly
        (fake : httpmock.Transport) (req : http.Request) (expected : string) :
  httpmock.request fake = Some req ->
  httpmock.failed (httpmock.t fake) = false ->
  let failedBy (v : httpmock.verdict) (actual : string) :=
    exists t', v = httpmock.Continues t'
               /\ (httpmock.failed t' = true <-> actual <> expected)
               /\ (actual = expected -> t' = httpmock.t fake) in
  failedBy (httpmock.AssertRequestMethod expected fake) (http.Method req)
  /\ failedBy (httpmock.AssertRequestPath expected fake) (url.Path (http.URL req))
  /\ failedBy (httpmock.AssertRequestHost expected fake) (url.Host (http.URL req))
  /\ failedBy (httpmock.AssertRequestContentType expected fake)
              (http.Get (http.Header_ req) "Content-Type")
  /\ failedBy (httpmock.AssertRequestAccepts expected fake)
              (http.Get (http.Header_ req) "Accept").
Proof.
  intros Hreq Hf failedBy. subst failedBy. cbv beta.
  unfold httpmock.AssertRequestMethod, httpmock.AssertRequestPath,
    httpmock.AssertRequestContentType, httpmock.AssertRequestAccepts,
    httpmock.AssertRequestHost, httpmock.assertRequestMade.
  rewrite Hreq. repeat split; apply expect_failed; exact Hf.
Qed.

Lemma X18_assertions_compare_exactly_witness :
  let req :=
    http.mkRequest "GET" (url.mkURL "http" "" None "example.com" "/doc/x" false "" "")
                   (<["Accept" := ["application/json; q=1"]]> ∅) "" 0 "example.com" in
  let fake := fst (httpmock.RoundTrip req (httpmock.NewTransport (httpmock.mkT false []))) in
  (exists t', httpmock.AssertRequestAccepts "application/json" fake
              = httpmock.Continues t' /\ httpmock.failed t' = true)
  /\ (exists t', httpmock.AssertRequestPath "/doc/x" fake
                 = httpmock.Continues t' /\ httpmock.failed t' = false).
Proof.
  intros req fake. split.
  - destruct (X18_assertions_compare_exactly fake req "application/json" eq_refl eq_refl)
      as (_ & _ & _ & _ & t' & Hv & Hfail & _).
    exists t'. split; [exact Hv|]. apply Hfail. discriminate.
  - destruct (X18_assertions_compare_exactly fake req "/doc/x" eq_refl eq_refl)
      as (_ & (t' & Hv & _ & Hsame) & _).
    exists t'. split; [exact Hv|]. rewrite (Hsame eq_refl). reflexivity.
Defined.

(** X19. Every request [HTTPRequest] builds, handed to the mock transport,
    passes [AssertRequestContentType] and [AssertRequestAccepts] for
    [application/json], whatever headers the builder was given. *)
Theorem X19_sling_request_passes_header_assertions
        (baseURL : option url.URL) (request responder : jsonRequest)
        (req : http.Request) (fake : httpmock.Transport) :
  HTTPRequest baseURL request = Returns (responder, inr req) ->
  let fake' := fst (httpmock.RoundTrip req fake) in
  httpmock.AssertRequestContentType "application/json" fake'
  = httpmock.Continues (httpmock.t fake)
  /\ httpmock.AssertRequestAccepts "application/json" fake'
     = httpmock.Continues (httpmock.t fake).
Proof.
  intros Hreq fake'.
  assert (Hrequest : httpmock.request fake' = Some req).
  { unfold fake', httpmock.RoundTrip. cbn [httpmock.error_ httpmock.response].
    destruct (httpmock.error_ fake); [reflexivity|].
    destruct (httpmock.Body (httpmock.response fake)); reflexivity. }
  assert (Ht : httpmock.t fake' = httpmock.t fake).
  { unfold fake', httpmock.RoundTrip. cbn [httpmock.error_ httpmock.response].
    destruct (httpmock.error_ fake); [reflexivity|].
    destruct (httpmock.Body (httpmock.response fake)); reflexivity. }
  pose proof (HTTPRequest_headers _ _ _ _ Hreq) as Hh.
  assert (Hct : http.Get (http.Header_ req) "Content-Type" = "application/json").
  { unfold http.Get. rewrite Hh, !values_Set. reflexivity. }
  assert (Hacc : http.Get (http.Header_ req) "Accept" = "application/json").
  { unfold http.Get. rewrite Hh, values_Set. reflexivity. }
  unfold httpmock.AssertRequestContentType, httpmock.AssertRequestAccepts,
    httpmock.assertRequestMade, httpmock.expect.
  rewrite Hrequest, Ht, Hct, Hacc. split; reflexivity.
Qed.

Lemma X19_sling_request_passes_header_assertions_witness :
  exists req,
    httpmock.AssertRequestContentType "application/json"
      (fst (httpmock.RoundTrip req (httpmock.NewTransport (httpmock.mkT false []))))
    = httpmock.Continues (httpmock.mkT false []).
Proof.
  assert (Hreq : exists responder req,
             HTTPRequest tests.requestURL
                         (Header "content-type" "text/plain" (JSONRequest "PUT" "x"))
             = Returns (responder, inr req)).
  { eexists _, _. vm_compute. reflexivity. }
  destruct Hreq as (responder & req & Hreq).
  exists req.
  exact (proj1 (X19_sling_request_passes_header_assertions
                  tests.requestURL _ responder req
                  (httpmock.NewTransport (httpmock.mkT false [])) Hreq)).
Defined.

(** X20. The mock pool reports no error for any base URL: for a text
    [url.Parse] rejects it returns a handle whose URL is nil, and handing
    that URL to [HTTPRequest], as [Do] does first, panics for every request
    whose path has no scheme. *)
Theorem X20_mock_pool_accepts_any_URL
        (baseURL : string) (transport : httpmock.Transport) :
  snd (httpmock.HTTP baseURL transport) = None
  /\ httpmock.Client (fst (httpmock.HTTP baseURL transport)) = transport
  /\ (httpmock.URL (fst (httpmock.HTTP baseURL transport)) = None
      <-> exists e, url.Parse baseURL = inl e)
  /\ (forall (e : error) (request : jsonRequest) (ref : url.URL),
         url.Parse baseURL = inl e ->
         url.Parse (gostrings.TrimLeft (path request) "/") = inr ref ->
         url.Scheme ref = "" ->
         HTTPRequest (httpmock.URL (fst (httpmock.HTTP baseURL transport))) request
         = Panics nilDereference).
Proof.
  unfold httpmock.HTTP. cbn [fst snd httpmock.URL httpmock.Client].
  split; [reflexivity|]. split; [reflexivity|]. split.
  - destruct (url.Parse baseURL) as [e|u].
    + split; [intros _; exists e; reflexivity|reflexivity].
    + split; [discriminate|intros [e He]; discriminate].
  - intros e request ref Hbase Hparse Hs. rewrite Hbase.
    apply HTTPRequest_nil_base. right. exists ref. split; [exact Hparse|exact Hs].
Qed.

Lemma X20_mock_pool_accepts_any_URL_witness :
  let transport := httpmock.NewTransport (httpmock.mkT false []) in
  snd (httpmock.HTTP ":/" transport) = None
  /\ HTTPRequest (httpmock.URL (fst (httpmock.HTTP ":/" transport)))
                 (JSONRequest "GET" "/some/path")
     = Panics nilDereference.
Proof.
  intros transport.
  destruct (X20_mock_pool_accepts_any_URL ":/" transport) as (Hnil & _ & _ & Hpanic).
  split; [exact Hnil|].
  apply (Hpanic (urlError "parse" ":/" "missing protocol scheme")
                (JSONRequest "GET" "/some/path")
                (url.mkURL "" "" None "" "some/path" false "" ""));
    reflexivity.
Defined.

(** X21. [AssertResponseBodyClosed] fails the test exactly when a body is
    set and has not been closed: with no body it only logs that it cannot
    tell, a body just set fails it, the same body closed passes it, and
    setting a body anew after the close fails it again. *)
Theorem X21_response_body_closed
        (fake : httpmock.Transport) (body body' : string) :
  (httpmock.Body (httpmock.response fake) = None ->
   httpmock.AssertResponseBodyClosed fake
   = httpmock.Continues
       (httpmock.Log "Cannot determine response body closed status, skipping"
                     (httpmock.t fake)))
  /\ httpmock.AssertResponseBodyClosed (httpmock.SetResponseBody body fake)
     = httpmock.Continues
         (httpmock.Errorf "HTTP response body was not closed" (httpmock.t fake))
  /\ httpmock.AssertResponseBodyClosed
       (httpmock.CloseResponseBody (httpmock.SetResponseBody body fake))
     = httpmock.Continues (httpmock.t fake)
  /\ httpmock.AssertResponseBodyClosed
       (httpmock.SetResponseBody body'
          (httpmock.CloseResponseBody (httpmock.SetResponseBody body fake)))
     = httpmock.Continues
         (httpmock.Errorf "HTTP response body was not closed" (httpmock.t fake))
  /\ (forall req : http.Request,
         httpmock.error_ fake = None ->
         httpmock.Body (httpmock.response fake) = None ->
         httpmock.AssertResponseBodyClosed (fst (httpmock.RoundTrip req fake))
         = httpmock.Continues
             (httpmock.Errorf "HTTP response body was not closed" (httpmock.t fake))).
Proof.
  split; [|split; [|split; [|split]]].
  - intros Hnone. unfold httpmock.AssertResponseBodyClosed. rewrite Hnone. reflexivity.
  - reflexivity.
  - reflexivity.
  - reflexivity.
  - intros req Herr Hnone. unfold httpmock.RoundTrip.
    cbn [httpmock.error_ httpmock.response]. rewrite Herr, Hnone. reflexivity.
Qed.

Lemma X21_response_body_closed_witness :
  let fresh := httpmock.NewTransport (httpmock.mkT false []) in
  let req :=
    http.mkRequest "GET" (url.mkURL "http" "" None "example.com" "/doc/" false "" "")
                   ∅ "" 0 "example.com" in
  httpmock.AssertResponseBodyClosed fresh
  = httpmock.Continues
      (httpmock.mkT false ["Cannot determine response body closed status, skipping"])
  /\ httpmock.AssertResponseBodyClosed (fst (httpmock.RoundTrip req fresh))
     = httpmock.Continues (httpmock.mkT true ["HTTP response body was not closed"]).
Proof.
  intros fresh req.
  destruct (X21_response_body_closed fresh "" "") as (Hnone & _ & _ & _ & Htrip).
  split; [exact (Hnone eq_refl)|exact (Htrip req eq_refl eq_refl)].
Defined.
